(** * LMS backend: the storage layer of [backend-svc/storage/db_storage.go]

    A shallow embedding of the [DBStorage] methods over an explicit model of
    the relational store they talk to, and the properties of the identity,
    one-time-password, course and progress operations proved on it.

    Conventions.
    - A Go [string] is a Rocq [string] (a sequence of 8-bit characters), a Go
      [int] an unbounded [Z] (identifiers are never computed with), a
      [time.Time] the number of nanoseconds since a fixed epoch.
    - A method returning [error] is a computation [M error unit]; a method
      returning [(T, error)] is [M error T]: every failing return of the
      source hands back the zero value of [T], so [inl e] stands for
      [(zero, e)] and [inr v] for [(v, nil)].
    - Each SQL statement is given by its meaning on the tables; the statement
      text is quoted next to it.  Strings are compared exactly and instants
      are stored exactly.
    - The store is transactional: what a transaction writes is seen outside
      it only once it is committed.  A call into the driver may fail, as a
      script carried by the world says; a failed statement changes nothing.
      A statement the server rejects for reasons of its own (a lost
      connection, a constraint of a table definition, which is not part of
      the sources) is such a failing call. *)

From Stdlib Require Import ZArith String Ascii Lia.
From stdpp Require Import base option list sorting strings gmap.

Local Open Scope string_scope.
Local Open Scope Z_scope.

(** ** crypto/subtle *)

Module subtle.

(** [[]byte(s)]: the bytes of a string. *)
Definition bytes (s : string) : list Z :=
  map (λ c, Z.of_N (N_of_ascii c)) (list_ascii_of_string s).

(** [func ConstantTimeByteEq(x, y uint8) int { return int((uint32(x^y) - 1) >> 31) }] *)
Definition ConstantTimeByteEq (x y : Z) : Z :=
  Z.shiftr ((Z.lxor x y - 1) mod 2 ^ 32) 31.

(** The loop [for i := 0; i < len(x); i++ { v |= x[i] ^ y[i] }], [v] a [byte]. *)
Fixpoint accumulate (v : Z) (x y : list Z) : Z :=
  match x, y with
  | a :: x', b :: y' => accumulate (Z.lor v (Z.lxor a b) mod 2 ^ 8) x' y'
  | _, _ => v
  end.

(** [func ConstantTimeCompare(x, y []byte) int] *)
Definition ConstantTimeCompare (x y : list Z) : Z :=
  if negb (length x =? length y)%nat then 0
  else ConstantTimeByteEq (accumulate 0 x y) 0.

End subtle.

(** The values of a Go [byte]. *)
Definition byte (v : Z) : Prop := 0 ≤ v < 2 ^ 8.

(** ** backend-svc/models: the structs the storage layer fills and reads *)

Module models.

Module Task.
Record t := mk
  { ID : Z; CourseID : Z; Title : string; Description : string;
    Difficulty : string; Order : Z }.
End Task.

Module Course.
Record t := mk
  { ID : Z; VulnerabilityType : string; TasksCount : Z;
    Description : string; Tasks : list Task.t }.
End Course.

Module User.
Record t := mk
  { ID : Z; Username : string; PasswordHash : string; Email : string;
    FullName : string; TOTPSecret : string; Is2FAEnabled : bool;
    IsAdmin : bool; IsActive : bool; LastLogin : Z }.
End User.

Module UserProgress.
Record t := mk { UserID : Z; Completed : gmap Z bool }.
End UserProgress.

Module UpdateProfileRequest.
Record t := mk { Email : string; FullName : string; Password : string }.
End UpdateProfileRequest.

End models.

(** ** The tables *)

Module users.
(** [users(id, username, password_hash, email, full_name, totp_secret,
    is_2fa_enabled, is_admin, is_active, last_login, otp_code,
    otp_expires_at)]; the last three columns may hold NULL. *)
Record row := mk
  { id : Z; username : string; password_hash : string; email : string;
    full_name : string; totp_secret : string; is_2fa_enabled : bool;
    is_admin : bool; is_active : bool; last_login : option Z;
    otp_code : option string; otp_expires_at : option Z }.

Definition set_email (v : string) (r : row) : row :=
  mk (id r) (username r) (password_hash r) v (full_name r) (totp_secret r)
     (is_2fa_enabled r) (is_admin r) (is_active r) (last_login r)
     (otp_code r) (otp_expires_at r).
Definition set_full_name (v : string) (r : row) : row :=
  mk (id r) (username r) (password_hash r) (email r) v (totp_secret r)
     (is_2fa_enabled r) (is_admin r) (is_active r) (last_login r)
     (otp_code r) (otp_expires_at r).
Definition set_password_hash (v : string) (r : row) : row :=
  mk (id r) (username r) v (email r) (full_name r) (totp_secret r)
     (is_2fa_enabled r) (is_admin r) (is_active r) (last_login r)
     (otp_code r) (otp_expires_at r).
Definition set_otp (code : option string) (expires : option Z) (r : row) : row :=
  mk (id r) (username r) (password_hash r) (email r) (full_name r)
     (totp_secret r) (is_2fa_enabled r) (is_admin r) (is_active r)
     (last_login r) code expires.
End users.

Module courses.
(** [courses(id, vulnerability_type, description)] *)
Record row := mk { id : Z; vulnerability_type : string; description : string }.
End courses.

Module tasks.
(** [tasks(id, course_id, title, description, difficulty, task_order)] *)
Record row := mk
  { id : Z; course_id : Z; title : string; description : string;
    difficulty : string; task_order : Z }.
End tasks.

Module user_progress.
(** [user_progress(user_id, task_id)] *)
Record row := mk { user_id : Z; task_id : Z }.

(** Modelled from the spec: the table definition is not part of the
    sources; the persisted shape lists [UNIQUE(user_id, task_id)], the key
    that [ON DUPLICATE KEY UPDATE] in [CompleteTask] refers to. *)
Definition same_key (a b : row) : bool :=
  (user_id a =? user_id b) && (task_id a =? task_id b).
End user_progress.

(** The contents of the database.  [users_auto_increment] is the next value of
    the [users.id] counter and [is_admin_default] the default of the
    [users.is_admin] column: [CreateUser] names neither column in its INSERT,
    and the table definition is not part of the sources. *)
Record DB := mkDB
  { users_table : list users.row;
    courses_table : list courses.row;
    tasks_table : list tasks.row;
    user_progress_table : list user_progress.row;
    users_auto_increment : Z;
    is_admin_default : bool }.

Definition with_users (f : list users.row → list users.row) (d : DB) : DB :=
  mkDB (f (users_table d)) (courses_table d) (tasks_table d)
       (user_progress_table d) (users_auto_increment d) (is_admin_default d).

Definition with_user_progress
    (f : list user_progress.row → list user_progress.row) (d : DB) : DB :=
  mkDB (users_table d) (courses_table d) (tasks_table d)
       (f (user_progress_table d)) (users_auto_increment d) (is_admin_default d).

(** ** Errors *)

Inductive error : Type :=
  | ErrCourseNotFound                  (* storage.ErrCourseNotFound *)
  | ErrTaskNotFound                    (* storage.ErrTaskNotFound *)
  | ErrNoRows                          (* sql.ErrNoRows *)
  | ErrTxDone                          (* sql.ErrTxDone *)
  | ErrScanNull (column : string)      (* Scan error on the column: converting NULL to string is unsupported *)
  | ErrDriver (msg : string)           (* a failure reported by the driver, the server or the OS *)
  | New (msg : string)                 (* errors.New(msg) *)
  | Errorf (msg : string) (err : error). (* fmt.Errorf(msg + ": %w", err) *)

Global Instance error_eq_dec : EqDecision error.
Proof. solve_decision. Defined.

(** [errors.Is(err, target)] for the comparable error values above. *)
Fixpoint Is (err target : error) : bool :=
  if decide (err = target) then true
  else match err with
       | Errorf _ inner => Is inner target
       | _ => false
       end.

(** ** The world a call runs in *)

(** [store] is what is committed; [txs] maps the handle of every transaction
    begun and not yet finished to its working copy; [faults] scripts the
    external calls still to come ([Some msg]: the call fails with that
    message; an exhausted script means no failure); [clock] is [time.Now()];
    [entropy] counts the salts drawn from [crypto/rand]. *)
Record World := mkWorld
  { store : DB;
    txs : gmap nat DB;
    next_tx : nat;
    faults : list (option string);
    clock : Z;
    entropy : nat }.

Definition set_store (d : DB) (w : World) : World :=
  mkWorld d (txs w) (next_tx w) (faults w) (clock w) (entropy w).
Definition set_txs (t : gmap nat DB) (w : World) : World :=
  mkWorld (store w) t (next_tx w) (faults w) (clock w) (entropy w).
Definition skip (w : World) : World :=
  mkWorld (store w) (txs w) (next_tx w) (tail (faults w)) (clock w) (entropy w).

(** ** The monad of calls: state [World], failure [E] *)

Definition M (E A : Type) : Type := World → (E + A) * World.

Definition ret {E A} (a : A) : M E A := λ w, (inr a, w).
Definition throw {E A} (e : E) : M E A := λ w, (inl e, w).
Definition bind {E A B} (m : M E A) (k : A → M E B) : M E B :=
  λ w, match m w with
       | (inr a, w') => k a w'
       | (inl e, w') => (inl e, w')
       end.
(** [if err != nil { return h(err) }] *)
Definition on_err {E E' A} (m : M E A) (h : E → E') : M E' A :=
  λ w, match m w with
       | (inr a, w') => (inr a, w')
       | (inl e, w') => (inl (h e), w')
       end.
Notation "m 'or_return' h" := (on_err m h)
  (at level 66, left associativity, only parsing).

Definition gets {E A} (f : World → A) : M E A := λ w, (inr (f w), w).
Definition modify {E} (f : World → World) : M E unit := λ w, (inr tt, f w).
(** The outcome of a conversion that touches nothing. *)
Definition lift {E A} (r : E + A) : M E A := λ w, (r, w).

Global Instance M_ret {E} : MRet (M E) := λ A, ret.
Global Instance M_bind {E} : MBind (M E) := λ A B k m, bind m k.

(** One call into the driver: it consumes the head of the script and fails
    when the script says so. *)
Definition outcome (w : World) : error + unit :=
  match faults w with
  | Some msg :: _ => inl (ErrDriver msg)
  | _ => inr tt
  end.

Definition io : M error unit := λ w, (outcome w, skip w).

(** No external call fails from here on. *)
Definition quiet (w : World) : Prop := Forall (λ f, f = None) (faults w).

(** [time.Now()] *)
Definition Now : M error Z := gets clock.

(** [5 * time.Minute], in nanoseconds *)
Definition Minute : Z := 60 * 1000000000.

(** ** database/sql over the store *)

Module sql.

(** [db.Prepare(query)] *)
Definition Prepare : M error unit := io.

(** [stmt.Exec(args...)] outside a transaction: the statement commits on
    its own. *)
Definition Exec (update : DB → DB) : M error unit :=
  io;; modify (λ w, set_store (update (store w)) w).

(** [stmt.Query(args...)]: the rows, in the order the server sends them. *)
Definition Query {R} (select : DB → list R) : M error (list R) :=
  io;; gets (λ w, select (store w)).

(** [rows.Err()] after the loop over [rows.Next()]. *)
Definition RowsErr : M error unit := io.

(** [row.Scan(dest...)] on the result of [QueryRow]: the first row, or
    [sql.ErrNoRows] when there is none. *)
Definition scan_first {R A} (scan : R → error + A) (rows : list R) : M error A :=
  match rows with
  | [] => throw ErrNoRows
  | r :: _ => lift (scan r)
  end.

(** [stmt.QueryRow(args...).Scan(dest...)] *)
Definition QueryRow {R A} (select : DB → list R) (scan : R → error + A)
  : M error A :=
  rows ← Query select; scan_first scan rows.

(** [db.Begin()]: a new transaction, working on a copy of what is committed. *)
Definition Begin : M error nat :=
  io;; tx ← gets next_tx;
  modify (λ w, mkWorld (store w) (<[tx := store w]> (txs w)) (S tx)
                       (faults w) (clock w) (entropy w));;
  mret tx.

(** A finished transaction refuses every further call with [sql.ErrTxDone]. *)
Definition working_copy (tx : nat) : M error DB :=
  copy ← gets (λ w, txs w !! tx);
  match copy with
  | Some d => mret d
  | None => throw ErrTxDone
  end.

(** [tx.Prepare(query)] *)
Definition TxPrepare (tx : nat) : M error unit := working_copy tx;; io.

(** [stmt.Exec(args...)] on a statement of the transaction: only the
    working copy changes. *)
Definition TxExec (tx : nat) (update : DB → DB) : M error unit :=
  d ← working_copy tx; io;;
  modify (λ w, set_txs (<[tx := update d]> (txs w)) w).

(** [stmt.Query(args...)] on a statement of the transaction. *)
Definition TxQuery {R} (tx : nat) (select : DB → list R) : M error (list R) :=
  d ← working_copy tx; io;; mret (select d).

(** [stmt.QueryRow(args...).Scan(dest...)] on a statement of the transaction. *)
Definition TxQueryRow {R A} (tx : nat) (select : DB → list R)
    (scan : R → error + A) : M error A :=
  rows ← TxQuery tx select; scan_first scan rows.

(** [tx.Commit()]: the transaction is finished either way; its working copy
    becomes the committed contents when the server accepts the commit. *)
Definition Commit (tx : nat) : M error unit :=
  d ← working_copy tx;
  modify (λ w, set_txs (delete tx (txs w)) w);;
  io;;
  modify (set_store d).

(** [tx.Rollback()]: the working copy is dropped. *)
Definition Rollback (tx : nat) : M error unit :=
  working_copy tx;;
  modify (λ w, set_txs (delete tx (txs w)) w);;
  io.

End sql.

(** [m] run for its outcome: the error, if any, is handed to the caller's
    own [if err != nil] instead of ending the call. *)
Definition attempt {E A} (m : M E A) : M E (E + A) :=
  λ w, let '(r, w') := m w in (inr r, w').

(** A function body with one deferred closure that reads an error variable
    of the enclosing function.  A failing exit of the body carries the value
    that variable holds at the [return] together with the error returned; on
    the successful exits of the two functions below the variable is [nil].
    The closure runs last and cannot change what is returned (the results are
    unnamed). *)
Definition with_defer {A} (body : M (option error * error) A)
    (deferred : option error → M error unit) : M error A :=
  λ w, match body w with
       | (inr a, w1) => (inr a, (deferred None w1).2)
       | (inl (captured, e), w1) => (inl e, (deferred captured w1).2)
       end.

(** ** The statements *)

(** [ORDER BY key]: rows by ascending key, rows of equal key in table order. *)
Fixpoint insert_by {A} (key : A → Z) (x : A) (l : list A) : list A :=
  match l with
  | [] => [x]
  | y :: l' => if key x <=? key y then x :: l else y :: insert_by key x l'
  end.

Definition order_by {A} (key : A → Z) (l : list A) : list A :=
  foldr (insert_by key) [] l.

(** [UPDATE users SET ... WHERE id = ?] *)
Definition update_users_where_id (userID : Z) (f : users.row → users.row)
  : DB → DB :=
  with_users (map (λ r, if users.id r =? userID then f r else r)).

(** [SELECT otp_code, otp_expires_at FROM users WHERE id = ?] *)
Definition select_otp (userID : Z) (d : DB) : list (option string * option Z) :=
  map (λ r, (users.otp_code r, users.otp_expires_at r))
      (filter (λ r, users.id r = userID) (users_table d)).

(** [Scan(&storedCode, &expiresAt)] with [storedCode string] and
    [expiresAt time.Time]: neither destination can take NULL. *)
Definition scan_otp (r : option string * option Z) : error + (string * Z) :=
  match r with
  | (None, _) => inl (ErrScanNull "otp_code")
  | (Some _, None) => inl (ErrScanNull "otp_expires_at")
  | (Some storedCode, Some expiresAt) => inr (storedCode, expiresAt)
  end.

(** [Scan(&exists)] with [exists bool] on the one row of a [SELECT EXISTS]. *)
Definition scan_exists (b : bool) : error + bool := inr b.

(** [SELECT EXISTS(SELECT 1 FROM tasks WHERE id = ?)] *)
Definition select_exists_task (taskID : Z) (d : DB) : list bool :=
  [existsb (λ t, tasks.id t =? taskID) (tasks_table d)].

(** [INSERT INTO user_progress (user_id, task_id) VALUES (?, ?)
     ON DUPLICATE KEY UPDATE task_id = VALUES(task_id)] *)
Definition insert_user_progress (new : user_progress.row)
  : list user_progress.row → list user_progress.row :=
  λ t, if existsb (user_progress.same_key new) t
       then map (λ r, if user_progress.same_key new r
                      then user_progress.mk (user_progress.user_id r)
                                            (user_progress.task_id new)
                      else r) t
       else (t ++ [new])%list.

(** [SELECT task_id FROM user_progress WHERE user_id = ?] *)
Definition select_progress (userID : Z) (d : DB) : list Z :=
  map user_progress.task_id
      (filter (λ r, user_progress.user_id r = userID) (user_progress_table d)).

(** [SELECT EXISTS(SELECT 1 FROM users WHERE username = ? OR email = ?)] *)
Definition select_exists_user (username email : string) (d : DB) : list bool :=
  [existsb (λ r, String.eqb (users.username r) username
                 || String.eqb (users.email r) email) (users_table d)].

(** [INSERT INTO users (username, password_hash, email, full_name,
     totp_secret, is_2fa_enabled, is_active) VALUES (?, ?, ?, ?, ?, ?, ?)] with
    the seventh argument [true]; the columns not named take their defaults. *)
Definition insert_user (user : models.User.t) (d : DB) : DB :=
  mkDB (users_table d ++
          [users.mk (users_auto_increment d)
                    (models.User.Username user)
                    (models.User.PasswordHash user)
                    (models.User.Email user)
                    (models.User.FullName user)
                    (models.User.TOTPSecret user)
                    (models.User.Is2FAEnabled user)
                    (is_admin_default d)
                    true
                    None None None])%list
       (courses_table d) (tasks_table d) (user_progress_table d)
       (users_auto_increment d + 1) (is_admin_default d).

(** [SELECT c.id, c.vulnerability_type, COUNT(t.id) as tasks_count,
     c.description FROM courses c LEFT JOIN tasks t ON c.id = t.course_id
     WHERE c.id = ? GROUP BY c.id], [id] being the key of [courses]. *)
Definition select_course (id : Z) (d : DB) : list models.Course.t :=
  map (λ c, models.Course.mk
              (courses.id c) (courses.vulnerability_type c)
              (Z.of_nat (length (filter (λ t, tasks.course_id t = courses.id c)
                                        (tasks_table d))))
              (courses.description c) [])
      (filter (λ c, courses.id c = id) (courses_table d)).

(** [SELECT id, course_id, title, description, difficulty, task_order
     FROM tasks WHERE course_id = ? ORDER BY task_order] *)
Definition select_tasks (id : Z) (d : DB) : list tasks.row :=
  order_by tasks.task_order
           (filter (λ t, tasks.course_id t = id) (tasks_table d)).

(** The loop body [tasksRows.Scan(&task.ID, ..., &task.Order)]. *)
Definition scan_task (r : tasks.row) : models.Task.t :=
  models.Task.mk (tasks.id r) (tasks.course_id r) (tasks.title r)
                 (tasks.description r) (tasks.difficulty r) (tasks.task_order r).

(** ** The methods of [DBStorage] *)

(** The transaction of [GetCourseByID]; every failing exit first stores the
    error in [txErr]. *)
Definition GetCourseByID_body (tx : nat) (id : Z)
  : M (option error * error) models.Course.t :=
  sql.TxPrepare tx
    or_return (λ err, (Some err, Errorf "prepare course statement" err));;
  course ← sql.TxQueryRow tx (select_course id) inr
    or_return (λ err, (Some err,
                      if Is err ErrNoRows then ErrCourseNotFound
                      else Errorf "query course" err));
  sql.TxPrepare tx
    or_return (λ err, (Some err, Errorf "prepare tasks statement" err));;
  tasksRows ← sql.TxQuery tx (select_tasks id)
    or_return (λ err, (Some err, Errorf "query tasks" err));
  let tasks := map scan_task tasksRows in
  sql.RowsErr or_return (λ err, (Some err, Errorf "iterate tasks" err));;
  mret (models.Course.mk (models.Course.ID course)
                         (models.Course.VulnerabilityType course)
                         (models.Course.TasksCount course)
                         (models.Course.Description course)
                         tasks).

Definition GetCourseByID (id : Z) : M error models.Course.t :=
  tx ← sql.Begin or_return Errorf "begin transaction";
  with_defer (GetCourseByID_body tx id)
    (λ txErr, match txErr with
              | Some _ => sql.Rollback tx
              | None => sql.Commit tx
              end).

Definition GetUserProgress (userID : Z) : M error models.UserProgress.t :=
  sql.Prepare or_return Errorf "prepare statement";;
  rows ← sql.Query (select_progress userID) or_return Errorf "execute query";
  let completed := foldl (λ (m : gmap Z bool) taskID, <[taskID := true]> m) ∅ rows in
  sql.RowsErr or_return Errorf "iterate rows";;
  mret (models.UserProgress.mk userID completed).

Definition CompleteTask (userID taskID : Z) : M error unit :=
  exists_ ← sql.QueryRow (select_exists_task taskID) scan_exists
    or_return Errorf "check task existence";
  if negb exists_ then throw ErrTaskNotFound
  else
    sql.Prepare or_return Errorf "prepare statement";;
    sql.Exec (with_user_progress
                (insert_user_progress (user_progress.mk userID taskID)))
      or_return Errorf "execute statement".

Definition CreateUser (user : models.User.t) : M error unit :=
  sql.Prepare;;
  exists_ ← sql.QueryRow
    (select_exists_user (models.User.Username user) (models.User.Email user))
    scan_exists;
  if (exists_ : bool) then throw (New "username or email already exists")
  else
    sql.Prepare;;
    sql.Exec (insert_user user).

Definition SaveOTPCode (userID : Z) (code : string) : M error unit :=
  now ← Now;
  let expiresAt := now + 5 * Minute in
  sql.Prepare;;
  sql.Exec (update_users_where_id userID
              (users.set_otp (Some code) (Some expiresAt))).

Definition VerifyOTPCode (userID : Z) (code : string) : M error bool :=
  sql.Prepare;;
  scanned ← attempt (sql.QueryRow (select_otp userID) scan_otp);
  match scanned with
  | inl err =>
      if decide (err = ErrNoRows) then mret false else throw err
  | inr (storedCode, expiresAt) =>
      if String.eqb storedCode "" then mret false
      else
        now ← Now;
        if expiresAt <? now then mret false
        else mret (subtle.ConstantTimeCompare (subtle.bytes code)
                                              (subtle.bytes storedCode) =? 1)
  end.

Definition ClearOTPCode (userID : Z) : M error unit :=
  sql.Prepare;;
  sql.Exec (update_users_where_id userID (users.set_otp None None)).

Section UpdateUserProfile.

(** [bcrypt.GenerateFromPassword(password, bcrypt.DefaultCost)] as a
    function of the salt drawn and the password. *)
Variable bcrypt : nat → string → string.

Definition GenerateFromPassword (password : string) : M error string :=
  io;;
  salt ← gets entropy;
  modify (λ w, mkWorld (store w) (txs w) (next_tx w) (faults w) (clock w)
                       (S salt));;
  mret (bcrypt salt password).

(** The statements between [Begin] and the end of the function.  The [err]
    of [tx, err := s.DB.Begin()], which the deferred closure reads, is [nil]
    here and is never assigned again: each block declares an [err] of its
    own with [:=], and [return err] returns that one. *)
Definition UpdateUserProfile_body (tx : nat) (userID : Z)
    (data : models.UpdateProfileRequest.t) : M (option error * error) unit :=
  let err : option error := None in
  (if negb (String.eqb (models.UpdateProfileRequest.Email data) "") then
     sql.TxPrepare tx or_return (λ err', (err, err'));;
     sql.TxExec tx (update_users_where_id userID
                      (users.set_email (models.UpdateProfileRequest.Email data)))
       or_return (λ err', (err, err'))
   else mret tt);;
  (if negb (String.eqb (models.UpdateProfileRequest.FullName data) "") then
     sql.TxPrepare tx or_return (λ err', (err, err'));;
     sql.TxExec tx (update_users_where_id userID
                      (users.set_full_name (models.UpdateProfileRequest.FullName data)))
       or_return (λ err', (err, err'))
   else mret tt);;
  (if negb (String.eqb (models.UpdateProfileRequest.Password data) "") then
     hashedPassword ←
       GenerateFromPassword (models.UpdateProfileRequest.Password data)
         or_return (λ err', (err, err'));
     sql.TxPrepare tx or_return (λ err', (err, err'));;
     sql.TxExec tx (update_users_where_id userID
                      (users.set_password_hash hashedPassword))
       or_return (λ err', (err, err'))
   else mret tt);;
  sql.Commit tx or_return (λ err', (err, err')).

Definition UpdateUserProfile (userID : Z)
    (data : models.UpdateProfileRequest.t) : M error unit :=
  tx ← sql.Begin;
  with_defer (UpdateUserProfile_body tx userID data)
    (λ err, match err with
            | Some _ => sql.Rollback tx
            | None => mret tt
            end).

End UpdateUserProfile.

(** ** What the properties are stated with *)

(** [otp_code] and [otp_expires_at] are both NULL or both set, on every row. *)
Definition otp_invariant (d : DB) : Prop :=
  Forall (λ r, users.otp_code r = None ↔ users.otp_expires_at r = None)
         (users_table d).

(** Ascending [Order]. *)
Definition ascending (a b : models.Task.t) : Prop :=
  models.Task.Order a ≤ models.Task.Order b.

(** The tasks a course owns: one struct for every row of [tasks] whose
    [course_id] is the id of the course, each field holding the column of
    its name ([Order] the column [task_order]). *)
Definition owned_tasks (id : Z) (d : DB) : list models.Task.t :=
  map (λ t, {| models.Task.ID := tasks.id t;
               models.Task.CourseID := tasks.course_id t;
               models.Task.Title := tasks.title t;
               models.Task.Description := tasks.description t;
               models.Task.Difficulty := tasks.difficulty t;
               models.Task.Order := tasks.task_order t |})
      (filter (λ t, tasks.course_id t = id) (tasks_table d)).

Global Instance user_progress_row_eq_dec : EqDecision user_progress.row.
Proof. solve_decision. Defined.

(** How many rows of [user_progress] record that [userID] completed [taskID]. *)
Definition occurrences (userID taskID : Z) (t : list user_progress.row) : nat :=
  length (filter (λ r, r = user_progress.mk userID taskID) t).

(** What a committed call of [UpdateUserProfile] leaves in the store, [salt]
    being the salt drawn for the new hash. *)
Definition committed_profile (bcrypt : nat → string → string) (salt : nat)
    (userID : Z) (data : models.UpdateProfileRequest.t) (d : DB) : DB :=
  let d1 :=
    if String.eqb (models.UpdateProfileRequest.Email data) "" then d
    else update_users_where_id userID
           (users.set_email (models.UpdateProfileRequest.Email data)) d in
  let d2 :=
    if String.eqb (models.UpdateProfileRequest.FullName data) "" then d1
    else update_users_where_id userID
           (users.set_full_name (models.UpdateProfileRequest.FullName data)) d1 in
  if String.eqb (models.UpdateProfileRequest.Password data) "" then d2
  else update_users_where_id userID
         (users.set_password_hash
            (bcrypt salt (models.UpdateProfileRequest.Password data))) d2.

(** The row a request asks for: each non-empty field replaces the stored one,
    the password by its hash. *)
Definition requested_row (data : models.UpdateProfileRequest.t) (hash : string)
    (r : users.row) : users.row :=
  users.mk (users.id r) (users.username r)
    (if String.eqb (models.UpdateProfileRequest.Password data) ""
     then users.password_hash r else hash)
    (if String.eqb (models.UpdateProfileRequest.Email data) ""
     then users.email r else models.UpdateProfileRequest.Email data)
    (if String.eqb (models.UpdateProfileRequest.FullName data) ""
     then users.full_name r else models.UpdateProfileRequest.FullName data)
    (users.totp_secret r) (users.is_2fa_enabled r) (users.is_admin r)
    (users.is_active r) (users.last_login r) (users.otp_code r)
    (users.otp_expires_at r).

(** ** A small store for the worked examples *)

Module sample.

Definition alice : users.row :=
  users.mk 7 "alice" "$2a$10$N9qo8uLOickgx2ZMRZoMye" "a@x.com" "Alice" ""
           false false true None None None.

Definition db : DB :=
  mkDB [alice]
       [courses.mk 1 "XSS" "Cross-site scripting"]
       [tasks.mk 10 1 "Stored" "" "hard" 2;
        tasks.mk 11 1 "Reflected" "" "easy" 1;
        tasks.mk 12 2 "Union" "" "easy" 1]
       [] 8 false.

(** Nothing fails. *)
Definition world : World := mkWorld db ∅ 0 [] 1000 0.

(** A stand-in for the hash function. *)
Definition bcrypt (salt : nat) (password : string) : string :=
  "$2a$10$" ++ password.

(** [d] nanoseconds later. *)
Definition later (d : Z) (w : World) : World :=
  mkWorld (store w) (txs w) (next_tx w) (faults w) (clock w + d) (entropy w).

End sample.

Module sample_faults.

(** A request for all three fields. *)
Definition request : models.UpdateProfileRequest.t :=
  models.UpdateProfileRequest.mk "alice@x.com" "Alice A." "hunter2".

(** [Begin], then the email statement is prepared and run, then the
    full-name statement is prepared, and running it fails. *)
Definition world : World :=
  mkWorld sample.db ∅ 0 [None; None; None; None; Some "deadlock"] 1000 0.

End sample_faults.

(** ** The remaining methods of [DBStorage] *)

(** The columns the remaining UPDATE statements set. *)
Definition users_set_is_2fa_enabled (v : bool) (r : users.row) : users.row :=
  users.mk (users.id r) (users.username r) (users.password_hash r)
           (users.email r) (users.full_name r) (users.totp_secret r) v
           (users.is_admin r) (users.is_active r) (users.last_login r)
           (users.otp_code r) (users.otp_expires_at r).
Definition users_set_is_admin (v : bool) (r : users.row) : users.row :=
  users.mk (users.id r) (users.username r) (users.password_hash r)
           (users.email r) (users.full_name r) (users.totp_secret r)
           (users.is_2fa_enabled r) v (users.is_active r) (users.last_login r)
           (users.otp_code r) (users.otp_expires_at r).
Definition users_set_is_active (v : bool) (r : users.row) : users.row :=
  users.mk (users.id r) (users.username r) (users.password_hash r)
           (users.email r) (users.full_name r) (users.totp_secret r)
           (users.is_2fa_enabled r) (users.is_admin r) v (users.last_login r)
           (users.otp_code r) (users.otp_expires_at r).
Definition users_set_last_login (v : option Z) (r : users.row) : users.row :=
  users.mk (users.id r) (users.username r) (users.password_hash r)
           (users.email r) (users.full_name r) (users.totp_secret r)
           (users.is_2fa_enabled r) (users.is_admin r) (users.is_active r) v
           (users.otp_code r) (users.otp_expires_at r).

(** [SELECT c.id, c.vulnerability_type, COUNT(t.id) as tasks_count,
     c.description FROM courses c LEFT JOIN tasks t ON c.id = t.course_id
     GROUP BY c.id], [id] being the key of [courses], the rows in table
    order; [course.Tasks] is not assigned. *)
Definition select_courses (d : DB) : list models.Course.t :=
  map (λ c, models.Course.mk
              (courses.id c) (courses.vulnerability_type c)
              (Z.of_nat (length (filter (λ t, tasks.course_id t = courses.id c)
                                        (tasks_table d))))
              (courses.description c) [])
      (courses_table d).

(** [Scan(&user.ID, &user.Username, &user.PasswordHash, &user.Email,
     &user.FullName, &user.TOTPSecret, &user.Is2FAEnabled)] into a fresh
    [models.User]: the fields not scanned keep their zero values, [false]
    and the zero [time.Time], which is the epoch instants are counted from. *)
Definition scan_user (r : users.row) : error + models.User.t :=
  inr (models.User.mk (users.id r) (users.username r) (users.password_hash r)
                      (users.email r) (users.full_name r) (users.totp_secret r)
                      (users.is_2fa_enabled r) false false 0).

(** The loop body of the three listings: the ten columns are scanned,
    [last_login] into a [sql.NullTime], and
    [if lastLogin.Valid { user.LastLogin = lastLogin.Time }]. *)
Definition scan_user_listed (r : users.row) : models.User.t :=
  models.User.mk (users.id r) (users.username r) (users.password_hash r)
                 (users.email r) (users.full_name r) (users.totp_secret r)
                 (users.is_2fa_enabled r) (users.is_admin r) (users.is_active r)
                 (match users.last_login r with
                  | Some t => t
                  | None => 0
                  end).

(** [SELECT id, username, password_hash, email, full_name, totp_secret,
     is_2fa_enabled FROM users WHERE username = ?] *)
Definition select_user_by_username (username : string) (d : DB)
  : list users.row :=
  filter (λ r, users.username r = username) (users_table d).

(** [SELECT id, username, password_hash, email, full_name, totp_secret,
     is_2fa_enabled FROM users WHERE id = ?] *)
Definition select_user_by_id (id : Z) (d : DB) : list users.row :=
  filter (λ r, users.id r = id) (users_table d).

(** [SELECT is_admin FROM users WHERE id = ?] *)
Definition select_is_admin (userID : Z) (d : DB) : list bool :=
  map users.is_admin (filter (λ r, users.id r = userID) (users_table d)).

(** [SELECT id, ..., is_2fa_enabled, is_admin, is_active, last_login
     FROM users WHERE is_admin = ?] *)
Definition select_users_by_role (isAdmin : bool) (d : DB) : list users.row :=
  filter (λ r, users.is_admin r = isAdmin) (users_table d).

(** [pattern LIKE] on the bytes of a string, compared exactly: [%] stands for
    any run of characters, [_] for any one character, and a backslash makes
    the character after it stand for itself. *)
Fixpoint like (pattern : list ascii) : list ascii → bool :=
  match pattern with
  | [] => λ s, match s with [] => true | _ => false end
  | c :: pattern' =>
      if Ascii.eqb c "%" then
        fix rest (s : list ascii) : bool :=
          like pattern' s || match s with [] => false | _ :: s' => rest s' end
      else if Ascii.eqb c "_" then
        λ s, match s with [] => false | _ :: s' => like pattern' s' end
      else if Ascii.eqb c "\" then
        match pattern' with
        | [] => λ s, match s with [a] => Ascii.eqb a "\" | _ => false end
        | c' :: pattern'' =>
            λ s, match s with
                 | [] => false
                 | a :: s' => Ascii.eqb a c' && like pattern'' s'
                 end
        end
      else
        λ s, match s with
             | [] => false
             | a :: s' => Ascii.eqb a c && like pattern' s'
             end
  end.

Definition LIKE (s pattern : string) : bool :=
  like (list_ascii_of_string pattern) (list_ascii_of_string s).

(** [SELECT id, ..., last_login FROM users
     WHERE username LIKE ? OR email LIKE ? OR full_name LIKE ?], the three
    arguments being [searchQuery]. *)
Definition select_users_like (searchQuery : string) (d : DB) : list users.row :=
  filter (λ r, LIKE (users.username r) searchQuery
               || LIKE (users.email r) searchQuery
               || LIKE (users.full_name r) searchQuery = true)
         (users_table d).

Definition GetCourses : M error (list models.Course.t) :=
  sql.Prepare or_return Errorf "prepare statement";;
  rows ← sql.Query select_courses or_return Errorf "execute query";
  let courses := rows in
  sql.RowsErr or_return Errorf "iterate rows";;
  mret courses.

Definition GetUserByUsername (username : string) : M error models.User.t :=
  sql.Prepare;;
  sql.QueryRow (select_user_by_username username) scan_user
    or_return (λ err, if Is err ErrNoRows then New "user not found" else err).

Definition GetUserByID (id : Z) : M error models.User.t :=
  sql.Prepare;;
  sql.QueryRow (select_user_by_id id) scan_user
    or_return (λ err, if Is err ErrNoRows then New "user not found" else err).

Definition GetUsersByRole (isAdmin : bool) : M error (list models.User.t) :=
  sql.Prepare;;
  rows ← sql.Query (select_users_by_role isAdmin);
  let users := map scan_user_listed rows in
  sql.RowsErr;;
  mret users.

(** [NOW()] is read by the server when the statement runs; the server and
    the process share the clock of the world. *)
Definition UpdateUserLastLogin (userID : Z) : M error unit :=
  sql.Prepare;;
  now ← Now;
  sql.Exec (update_users_where_id userID (users_set_last_login (Some now))).

Definition Enable2FA (userID : Z) : M error unit :=
  sql.Prepare;;
  sql.Exec (update_users_where_id userID (users_set_is_2fa_enabled true)).

Definition IsAdmin (userID : Z) : M error bool :=
  sql.Prepare;;
  sql.QueryRow (select_is_admin userID) scan_exists
    or_return (λ err, if Is err ErrNoRows then New "user not found" else err).

Definition GetAllUsers : M error (list models.User.t) :=
  sql.Prepare;;
  rows ← sql.Query users_table;
  let users := map scan_user_listed rows in
  sql.RowsErr;;
  mret users.

Definition SearchUsers (query : string) : M error (list models.User.t) :=
  let searchQuery := "%" ++ query ++ "%" in
  sql.Prepare;;
  rows ← sql.Query (select_users_like searchQuery);
  let users := map scan_user_listed rows in
  sql.RowsErr;;
  mret users.

Definition UpdateUserStatus (userID : Z) (isActive : bool) : M error unit :=
  sql.Prepare;;
  sql.Exec (update_users_where_id userID (users_set_is_active isActive)).

Definition PromoteToAdmin (userID : Z) : M error unit :=
  sql.Prepare;;
  sql.Exec (update_users_where_id userID (users_set_is_admin true)).

Definition DemoteFromAdmin (userID : Z) : M error unit :=
  sql.Prepare;;
  sql.Exec (update_users_where_id userID (users_set_is_admin false)).

(** ** What the further properties are stated with *)

(** The world [d] nanoseconds later. *)
Definition elapse (d : Z) (w : World) : World :=
  mkWorld (store w) (txs w) (next_tx w) (faults w) (clock w + d) (entropy w).

(** [q] occurs in [s]. *)
Definition contains (s q : string) : Prop :=
  ∃ before after, s = before ++ q ++ after.

(** No character of [q] has a meaning of its own in a LIKE pattern. *)
Definition plain (q : string) : Prop :=
  Forall (λ c, c ≠ "%"%char ∧ c ≠ "_"%char ∧ c ≠ "\"%char)
         (list_ascii_of_string q).

(** The external calls [UpdateUserProfile] makes after [Begin] and before
    [Commit]. *)
Definition statements_before_commit (data : models.UpdateProfileRequest.t)
  : nat :=
  (if String.eqb (models.UpdateProfileRequest.Email data) "" then 0 else 2)
  + (if String.eqb (models.UpdateProfileRequest.FullName data) "" then 0 else 2)
  + (if String.eqb (models.UpdateProfileRequest.Password data) "" then 0 else 3).

(** What identifies a user and lets them in. *)
Definition credentials (r : users.row)
  : Z * string * string * string * option string * option Z :=
  (users.id r, users.username r, users.password_hash r, users.email r,
   users.otp_code r, users.otp_expires_at r).
(** [user] shows the seven columns [GetUserByID] and [GetUserByUsername]
    select from the row [r]. *)
Definition shows (user : models.User.t) (r : users.row) : Prop :=
  models.User.ID user = users.id r ∧
  models.User.Username user = users.username r ∧
  models.User.PasswordHash user = users.password_hash r ∧
  models.User.Email user = users.email r ∧
  models.User.FullName user = users.full_name r ∧
  models.User.TOTPSecret user = users.totp_secret r ∧
  models.User.Is2FAEnabled user = users.is_2fa_enabled r.

(** * Properties *)

(** ** Constant-time comparison is equality of the strings *)

Section ConstantTime.

Lemma byte_log2 v : 0 ≤ v → v < 2 ^ 8 ↔ Z.log2 v < 8.
Proof.
  intros Hv. destruct (Z.eq_dec v 0) as [->|Hne].
  - split; intros _; [reflexivity | lia].
  - apply Z.log2_lt_pow2. lia.
Qed.

Lemma byte_lor_lxor v a b :
  byte v → byte a → byte b → byte (Z.lor v (Z.lxor a b)).
Proof.
  unfold byte. intros [Hv0 Hv] [Ha0 Ha] [Hb0 Hb].
  assert (Hx : 0 ≤ Z.lxor a b) by (apply Z.lxor_nonneg; tauto).
  assert (Ho : 0 ≤ Z.lor v (Z.lxor a b)) by (apply Z.lor_nonneg; tauto).
  split; [exact Ho|].
  apply byte_log2 in Hv, Ha, Hb; try assumption.
  apply byte_log2; [exact Ho|].
  rewrite Z.log2_lor by assumption.
  pose proof (Z.log2_lxor a b Ha0 Hb0). lia.
Qed.

Lemma byte_of_ascii c : byte (Z.of_N (N_of_ascii c)).
Proof.
  unfold byte. pose proof (N_ascii_bounded c).
  change (2 ^ 8) with 256. lia.
Qed.

Lemma bytes_Forall s : Forall byte (subtle.bytes s).
Proof. unfold subtle.bytes. apply Forall_map, Forall_true, byte_of_ascii. Qed.

Lemma bytes_inj s1 s2 : subtle.bytes s1 = subtle.bytes s2 → s1 = s2.
Proof.
  unfold subtle.bytes. intros H.
  rewrite <- (string_of_list_ascii_of_string s1),
          <- (string_of_list_ascii_of_string s2).
  f_equal. revert H. generalize (list_ascii_of_string s2).
  induction (list_ascii_of_string s1) as [|c l IH]; intros [|c' l'] H;
    simpl in H; try discriminate; [reflexivity|].
  injection H as Hc Hl. f_equal; [|auto].
  apply N2Z.inj in Hc.
  rewrite <- (ascii_N_embedding c), <- (ascii_N_embedding c'). congruence.
Qed.

Lemma ConstantTimeByteEq_zero v :
  byte v → subtle.ConstantTimeByteEq v 0 = if decide (v = 0) then 1 else 0.
Proof.
  unfold byte, subtle.ConstantTimeByteEq. intros [H0 H8].
  rewrite Z.lxor_0_r. case_decide as Hv.
  - subst v. reflexivity.
  - assert (2 ^ 8 < 2 ^ 31) by reflexivity.
    assert (2 ^ 31 < 2 ^ 32) by reflexivity.
    rewrite Z.mod_small by lia.
    rewrite Z.shiftr_div_pow2 by lia.
    apply Z.div_small. lia.
Qed.

Lemma accumulate_spec x : ∀ y v,
  byte v → Forall byte x → Forall byte y → length x = length y →
  byte (subtle.accumulate v x y) ∧
  (subtle.accumulate v x y = 0 ↔ v = 0 ∧ x = y).
Proof.
  induction x as [|a x IH]; intros [|b y] v Hv Hx Hy Hlen;
    simpl in Hlen; try discriminate; simpl.
  - split; [exact Hv | tauto].
  - apply Forall_cons in Hx as [Ha Hx]. apply Forall_cons in Hy as [Hb Hy].
    pose proof (byte_lor_lxor v a b Hv Ha Hb) as Hacc.
    rewrite (Z.mod_small _ (2 ^ 8)) by exact Hacc.
    destruct (IH y _ Hacc Hx Hy) as [Hbyte Hzero]; [congruence|].
    split; [exact Hbyte|].
    rewrite Hzero, Z.lor_eq_0_iff, Z.lxor_eq_0_iff.
    split; [intros [[-> ->] ->]; auto | intros [-> [= -> ->]]; auto].
Qed.

Lemma ConstantTimeCompare_spec x y :
  Forall byte x → Forall byte y →
  subtle.ConstantTimeCompare x y = if decide (x = y) then 1 else 0.
Proof.
  intros Hx Hy. unfold subtle.ConstantTimeCompare.
  destruct (Nat.eqb_spec (length x) (length y)) as [Hlen|Hlen]; simpl.
  - assert (Hz : byte 0) by (unfold byte; split; [lia | reflexivity]).
    destruct (accumulate_spec x y 0 Hz Hx Hy Hlen) as [Hb Hacc].
    rewrite ConstantTimeByteEq_zero by exact Hb.
    repeat case_decide; try reflexivity; exfalso; tauto.
  - case_decide; [subst; contradiction | reflexivity].
Qed.

Lemma ConstantTimeCompare_strings code storedCode :
  (subtle.ConstantTimeCompare (subtle.bytes code) (subtle.bytes storedCode) =? 1)
  = bool_decide (code = storedCode).
Proof.
  rewrite ConstantTimeCompare_spec by apply bytes_Forall.
  case_decide as H.
  - apply bytes_inj in H. subst. rewrite bool_decide_eq_true_2; reflexivity.
  - rewrite bool_decide_eq_false_2; [reflexivity | congruence].
Qed.

End ConstantTime.

(** ** Running a call when nothing fails *)

Lemma outcome_quiet w : quiet w → outcome w = inr tt.
Proof.
  unfold quiet, outcome. destruct (faults w) as [|[msg|] fs]; try reflexivity.
  intros H. apply Forall_cons in H as [[=] _].
Qed.

(** The calls are unfolded down to [outcome] and the projections of the
    world; [calm] then takes every external call from the hypothesis that
    nothing fails. *)
Ltac expose :=
  cbv beta iota delta
    [mbind M_bind bind mret M_ret ret on_err throw gets modify lift attempt
     with_defer io Now
     sql.Prepare sql.Exec sql.Query sql.RowsErr sql.scan_first sql.QueryRow
     sql.Begin sql.working_copy sql.TxPrepare sql.TxExec sql.TxQuery
     sql.TxQueryRow sql.Commit sql.Rollback].

Ltac project :=
  cbn [store txs next_tx faults clock entropy skip set_store set_txs fst snd
       negb].

Ltac still_quiet :=
  unfold quiet in *; project; repeat apply Forall_tail; assumption.

Ltac calm :=
  repeat first
    [ rewrite lookup_insert_eq
    | rewrite outcome_quiet by still_quiet
    | progress (cbv beta iota)
    | progress project ].

Lemma quiet_skip w : quiet w → quiet (skip w).
Proof. intros. still_quiet. Qed.

Lemma VerifyOTPCode_quiet userID code w :
  quiet w →
  (VerifyOTPCode userID code w).1 =
    match select_otp userID (store w) with
    | [] => inr false
    | (Some storedCode, Some expiresAt) :: _ =>
        inr (negb (String.eqb storedCode "") && negb (expiresAt <? clock w)
             && bool_decide (code = storedCode))
    | (None, _) :: _ => inl (ErrScanNull "otp_code")
    | (Some _, None) :: _ => inl (ErrScanNull "otp_expires_at")
    end.
Proof.
  intros Hq. unfold VerifyOTPCode. expose. calm. project.
  destruct (select_otp userID (store w)) as [|[[storedCode|] [expiresAt|]] rows];
    try reflexivity.
  cbn [scan_otp]. project.
  destruct (String.eqb storedCode ""); project; [reflexivity|].
  destruct (expiresAt <? clock w); project; [reflexivity|].
  rewrite ConstantTimeCompare_strings. reflexivity.
Qed.
Lemma GetCourseByID_quiet id w :
  quiet w →
  (GetCourseByID id w).1 =
    match select_course id (store w) with
    | [] => inl ErrCourseNotFound
    | course :: _ =>
        inr (models.Course.mk (models.Course.ID course)
               (models.Course.VulnerabilityType course)
               (models.Course.TasksCount course)
               (models.Course.Description course)
               (map scan_task (select_tasks id (store w))))
    end.
Proof.
  intros Hq. unfold GetCourseByID, GetCourseByID_body. expose. calm.
  destruct (select_course id (store w)) as [|course rows]; calm.
  - reflexivity.
  - reflexivity.
Qed.

Lemma SaveOTPCode_quiet userID code w :
  quiet w →
  SaveOTPCode userID code w =
    (inr tt,
     set_store (update_users_where_id userID
                  (users.set_otp (Some code) (Some (clock w + 5 * Minute)))
                  (store w))
               (skip (skip w))).
Proof. intros Hq. unfold SaveOTPCode. expose. calm. reflexivity. Qed.

Lemma ClearOTPCode_quiet userID w :
  quiet w →
  ClearOTPCode userID w =
    (inr tt,
     set_store (update_users_where_id userID (users.set_otp None None) (store w))
               (skip (skip w))).
Proof. intros Hq. unfold ClearOTPCode. expose. calm. reflexivity. Qed.

Lemma CompleteTask_quiet userID taskID w :
  quiet w →
  CompleteTask userID taskID w =
    if existsb (λ t, tasks.id t =? taskID) (tasks_table (store w))
    then (inr tt,
          set_store (with_user_progress
                       (insert_user_progress (user_progress.mk userID taskID))
                       (store w))
                    (skip (skip (skip w))))
    else (inl ErrTaskNotFound, skip w).
Proof.
  intros Hq. unfold CompleteTask. expose. calm.
  unfold select_exists_task, scan_exists. calm.
  destruct (existsb _ _); calm; reflexivity.
Qed.

Lemma GetUserProgress_quiet userID w :
  quiet w →
  GetUserProgress userID w =
    (inr (models.UserProgress.mk userID
            (foldl (λ (m : gmap Z bool) taskID, <[taskID := true]> m) ∅
                   (select_progress userID (store w)))),
     skip (skip (skip w))).
Proof. intros Hq. unfold GetUserProgress. expose. calm. reflexivity. Qed.

Lemma CreateUser_quiet user w :
  quiet w →
  CreateUser user w =
    if existsb (λ r, String.eqb (users.username r) (models.User.Username user)
                     || String.eqb (users.email r) (models.User.Email user))
               (users_table (store w))
    then (inl (New "username or email already exists"), skip (skip w))
    else (inr tt, set_store (insert_user user (store w))
                            (skip (skip (skip (skip w))))).
Proof.
  intros Hq. unfold CreateUser. expose. calm.
  unfold select_exists_user, scan_exists. calm.
  destruct (existsb _ _); calm; reflexivity.
Qed.

(** [fork] follows both outcomes of every external call. *)
Ltac fork :=
  repeat first
    [ rewrite lookup_insert_eq
    | progress (cbv beta iota)
    | progress project
    | match goal with
      | |- context [match outcome ?w with _ => _ end] =>
          destruct (outcome w) as [?|[]]
      end ].

Lemma UpdateUserProfile_quiet bcrypt userID data w :
  quiet w →
  (UpdateUserProfile bcrypt userID data w).1 = inr tt ∧
  store (UpdateUserProfile bcrypt userID data w).2
  = committed_profile bcrypt (entropy w) userID data (store w).
Proof.
  intros Hq. unfold UpdateUserProfile, UpdateUserProfile_body, GenerateFromPassword,
    committed_profile.
  expose. calm.
  destruct (String.eqb (models.UpdateProfileRequest.Email data) "");
  destruct (String.eqb (models.UpdateProfileRequest.FullName data) "");
  destruct (String.eqb (models.UpdateProfileRequest.Password data) "");
  calm; split; reflexivity.
Qed.

Lemma UpdateUserProfile_cases bcrypt userID data w :
  (∃ e, (UpdateUserProfile bcrypt userID data w).1 = inl e ∧
        store (UpdateUserProfile bcrypt userID data w).2 = store w) ∨
  ((UpdateUserProfile bcrypt userID data w).1 = inr tt ∧
   store (UpdateUserProfile bcrypt userID data w).2
   = committed_profile bcrypt (entropy w) userID data (store w)).
Proof.
  unfold UpdateUserProfile, UpdateUserProfile_body, GenerateFromPassword,
    committed_profile.
  expose.
  destruct (String.eqb (models.UpdateProfileRequest.Email data) "");
  destruct (String.eqb (models.UpdateProfileRequest.FullName data) "");
  destruct (String.eqb (models.UpdateProfileRequest.Password data) "");
  fork; solve [left; eexists; split; reflexivity | right; split; reflexivity].
Qed.

(** ** ORDER BY *)

Section OrderBy.
Context {A : Type} (key : A → Z).

Let le : relation A := λ a b, key a ≤ key b.

Lemma insert_by_Permutation x l : insert_by key x l ≡ₚ x :: l.
Proof.
  induction l as [|y l IH]; simpl; [reflexivity|].
  destruct (key x <=? key y); [reflexivity|].
  rewrite IH. apply Permutation_swap.
Qed.

Lemma order_by_Permutation l : order_by key l ≡ₚ l.
Proof.
  induction l as [|x l IH]; simpl; [reflexivity|].
  fold (order_by key l). rewrite insert_by_Permutation, IH. reflexivity.
Qed.

Lemma insert_by_StronglySorted x l :
  StronglySorted le l → StronglySorted le (insert_by key x l).
Proof.
  induction 1 as [|y l Hl IH Hy]; simpl.
  - repeat constructor.
  - destruct (Z.leb_spec (key x) (key y)) as [Hle|Hgt].
    + constructor; [constructor; assumption|].
      constructor; [exact Hle|].
      eapply Forall_impl; [exact Hy|]. unfold le. intros; simpl in *; lia.
    + constructor; [exact IH|].
      rewrite insert_by_Permutation. constructor; [unfold le; lia | exact Hy].
Qed.

Lemma order_by_StronglySorted l : StronglySorted le (order_by key l).
Proof.
  induction l as [|x l IH]; simpl; [constructor|].
  apply insert_by_StronglySorted, IH.
Qed.

End OrderBy.

Lemma select_tasks_ascending id d :
  StronglySorted ascending (map scan_task (select_tasks id d)).
Proof.
  unfold select_tasks.
  apply (StronglySorted_fmap scan_task
           (λ a b, tasks.task_order a ≤ tasks.task_order b)).
  - intros a b H. exact H.
  - apply order_by_StronglySorted.
Qed.

Lemma select_tasks_owned id d :
  map scan_task (select_tasks id d) ≡ₚ owned_tasks id d.
Proof.
  unfold select_tasks, owned_tasks.
  rewrite (order_by_Permutation tasks.task_order
             (filter (λ t, tasks.course_id t = id) (tasks_table d))).
  induction (filter (λ t, tasks.course_id t = id) (tasks_table d))
    as [|t l IH]; simpl; [reflexivity|].
  rewrite IH. reflexivity.
Qed.

Lemma select_course_row id d c :
  c ∈ courses_table d → courses.id c = id →
  ∃ c' course rows,
    c' ∈ courses_table d ∧ courses.id c' = id ∧
    select_course id d = course :: rows ∧
    models.Course.ID course = courses.id c' ∧
    models.Course.VulnerabilityType course = courses.vulnerability_type c' ∧
    models.Course.Description course = courses.description c'.
Proof.
  unfold select_course. intros Hin Hid.
  induction (courses_table d) as [|c0 l IH]; [inversion Hin|].
  rewrite filter_cons. case_decide as Hc.
  - simpl. exists c0. eexists _, _. split; [left|]. split; [exact Hc|].
    split; [reflexivity|]. simpl. auto.
  - apply elem_of_cons in Hin as [->|Hin]; [contradiction|].
    destruct (IH Hin) as (c' & course & rows & Hin' & Hid' & Hsel & Hrest).
    exists c', course, rows. split; [right; exact Hin'|]. auto.
Qed.

Lemma select_course_None id d :
  (∀ c, c ∈ courses_table d → courses.id c ≠ id) → select_course id d = [].
Proof.
  unfold select_course. intros H.
  induction (courses_table d) as [|c l IH]; [reflexivity|].
  rewrite filter_cons. case_decide as Hc.
  - exfalso. apply (H c); [left | exact Hc].
  - apply IH. intros c' Hc'. apply H. right. exact Hc'.
Qed.

Lemma select_course_Some id d c :
  c ∈ courses_table d → courses.id c = id →
  ∃ course rows, select_course id d = course :: rows ∧
                 models.Course.ID course = id.
Proof.
  unfold select_course. intros Hin Hid.
  induction (courses_table d) as [|c' l IH]; [inversion Hin|].
  rewrite filter_cons. case_decide as Hc.
  - simpl. eexists _, _. split; [reflexivity | exact Hc].
  - apply IH. apply elem_of_cons in Hin as [->|Hin]; [contradiction | exact Hin].
Qed.

(** C3. [GetCourseByID(id)] returns [ErrCourseNotFound] when no course has
    that id; when one has, it returns a course with that id and the label
    and description of a course row with that id, and its task list holds
    exactly the tasks the course owns (one struct per task row with that
    [course_id], carrying the columns of the row) in ascending [Order]. *)
Theorem GetCourseByID_not_found_or_sorted_tasks (id : Z) (w : World) :
  quiet w →
  ((∀ c, c ∈ courses_table (store w) → courses.id c ≠ id) →
   (GetCourseByID id w).1 = inl ErrCourseNotFound) ∧
  (∀ c, c ∈ courses_table (store w) → courses.id c = id →
   ∃ course, (GetCourseByID id w).1 = inr course ∧
             models.Course.ID course = id ∧
             (∃ c', c' ∈ courses_table (store w) ∧ courses.id c' = id ∧
                    models.Course.VulnerabilityType course
                    = courses.vulnerability_type c' ∧
                    models.Course.Description course
                    = courses.description c') ∧
             models.Course.Tasks course ≡ₚ owned_tasks id (store w) ∧
             StronglySorted ascending (models.Course.Tasks course)).
Proof.
  intros Hq. rewrite GetCourseByID_quiet by exact Hq. split.
  - intros H. rewrite select_course_None by exact H. reflexivity.
  - intros c Hin Hid.
    destruct (select_course_row id (store w) c Hin Hid)
      as (c' & course & rows & Hin' & Hid' & -> & Hcid & Hlabel & Hdescr).
    eexists. split; [reflexivity|]. simpl.
    split; [congruence|]. split; [exists c'; auto|]. split.
    + apply select_tasks_owned.
    + apply select_tasks_ascending.
Qed.

(** ** Task completion *)

Lemma existsb_task taskID l :
  existsb (λ t, tasks.id t =? taskID) l = true ↔
  ∃ t, t ∈ l ∧ tasks.id t = taskID.
Proof.
  rewrite existsb_exists. split; intros (t & Hin & Hid); exists t.
  - split; [apply list_elem_of_In, Hin | apply Z.eqb_eq, Hid].
  - split; [apply list_elem_of_In, Hin | apply Z.eqb_eq, Hid].
Qed.

Lemma same_key_eq new r : user_progress.same_key new r = true ↔ r = new.
Proof.
  unfold user_progress.same_key. destruct new as [u t], r as [u' t']; simpl.
  rewrite andb_true_iff, !Z.eqb_eq. split; [intros [-> ->] | intros [= -> ->]];
    auto.
Qed.

Lemma existsb_same_key new t :
  existsb (user_progress.same_key new) t = true ↔ new ∈ t.
Proof.
  rewrite existsb_exists. split.
  - intros (r & Hin & Hk). apply same_key_eq in Hk. subst.
    apply list_elem_of_In, Hin.
  - intros Hin. exists new. split; [apply list_elem_of_In, Hin|].
    apply same_key_eq. reflexivity.
Qed.

(** On a duplicate key the UPDATE rewrites the row to itself. *)
Lemma on_duplicate_key_update new t :
  map (λ r, if user_progress.same_key new r
            then user_progress.mk (user_progress.user_id r)
                                  (user_progress.task_id new)
            else r) t = t.
Proof.
  induction t as [|r t IH]; simpl; [reflexivity|]. rewrite IH. f_equal.
  destruct (user_progress.same_key new r) eqn:Hk; [|reflexivity].
  apply same_key_eq in Hk. subst. destruct new; reflexivity.
Qed.

Lemma insert_user_progress_spec new t :
  insert_user_progress new t = if decide (new ∈ t) then t else (t ++ [new])%list.
Proof.
  unfold insert_user_progress. rewrite on_duplicate_key_update.
  destruct (existsb _ t) eqn:He; case_decide as Hin; try reflexivity.
  - apply existsb_same_key in He. contradiction.
  - apply existsb_same_key in Hin. congruence.
Qed.

Lemma elem_of_insert_user_progress new t : new ∈ insert_user_progress new t.
Proof.
  rewrite insert_user_progress_spec. case_decide; [assumption|].
  apply elem_of_app. right. left.
Qed.

Lemma insert_user_progress_idemp new t :
  insert_user_progress new (insert_user_progress new t)
  = insert_user_progress new t.
Proof.
  rewrite (insert_user_progress_spec new (insert_user_progress new t)).
  rewrite decide_True by apply elem_of_insert_user_progress. reflexivity.
Qed.

Lemma occurrences_elem_of userID taskID t :
  user_progress.mk userID taskID ∈ t → (1 ≤ occurrences userID taskID t)%nat.
Proof.
  unfold occurrences. induction t as [|r t IH]; intros Hin; [inversion Hin|].
  rewrite filter_cons. case_decide as Hr; simpl; [lia|].
  apply IH. apply elem_of_cons in Hin as [Heq|Hin]; [congruence | exact Hin].
Qed.

Lemma occurrences_not_elem_of userID taskID t :
  user_progress.mk userID taskID ∉ t → occurrences userID taskID t = 0%nat.
Proof.
  unfold occurrences. induction t as [|r t IH]; intros Hin; [reflexivity|].
  rewrite filter_cons. apply not_elem_of_cons in Hin as [Hne Hin].
  rewrite decide_False by congruence. apply IH, Hin.
Qed.

Lemma occurrences_NoDup userID taskID t :
  NoDup t → (occurrences userID taskID t ≤ 1)%nat.
Proof.
  induction 1 as [|r t Hnotin Hnd IH]; [unfold occurrences; simpl; lia|].
  unfold occurrences in *. rewrite filter_cons. case_decide as Hr; [|exact IH].
  subst r. simpl.
  pose proof (occurrences_not_elem_of userID taskID t Hnotin) as H0.
  unfold occurrences in H0. rewrite H0. lia.
Qed.

Lemma occurrences_insert_user_progress userID taskID t :
  NoDup t →
  occurrences userID taskID
    (insert_user_progress (user_progress.mk userID taskID) t) = 1%nat.
Proof.
  intros Hnd. rewrite insert_user_progress_spec. case_decide as Hin.
  - pose proof (occurrences_elem_of _ _ _ Hin).
    pose proof (occurrences_NoDup userID taskID t Hnd). lia.
  - unfold occurrences. rewrite filter_app, length_app.
    pose proof (occurrences_not_elem_of _ _ _ Hin) as H0.
    unfold occurrences in H0. rewrite H0.
    rewrite filter_cons, decide_True by reflexivity. reflexivity.
Qed.

(** The map built by the loop [completed[taskID] = true]. *)
Lemma completed_lookup (rows : list Z) : ∀ (m : gmap Z bool) taskID,
  foldl (λ (m : gmap Z bool) k, <[k := true]> m) m rows !! taskID
  = if decide (taskID ∈ rows) then Some true else m !! taskID.
Proof.
  induction rows as [|k rows IH]; intros m taskID; cbn [foldl].
  - rewrite decide_False by apply not_elem_of_nil. reflexivity.
  - rewrite IH. destruct (decide (taskID ∈ rows)) as [Hin|Hnotin].
    + rewrite decide_True by (right; exact Hin). reflexivity.
    + destruct (decide (taskID = k)) as [->|Hne].
      * rewrite decide_True by left. apply lookup_insert_eq.
      * rewrite decide_False by (intros [?|?]%elem_of_cons; contradiction).
        apply lookup_insert_ne. congruence.
Qed.

Lemma elem_of_select_progress userID taskID d :
  taskID ∈ select_progress userID d ↔
  user_progress.mk userID taskID ∈ user_progress_table d.
Proof.
  unfold select_progress. rewrite list_elem_of_fmap. split.
  - intros ([u t] & -> & Hin). apply list_elem_of_filter in Hin as [Hu Hin].
    simpl in *. subst. exact Hin.
  - intros Hin. exists (user_progress.mk userID taskID). split; [reflexivity|].
    apply list_elem_of_filter. split; [reflexivity | exact Hin].
Qed.

(** What [GetUserProgress] answers once the row is there. *)
Lemma GetUserProgress_completed userID taskID w :
  quiet w →
  user_progress.mk userID taskID ∈ user_progress_table (store w) →
  ∃ progress, (GetUserProgress userID w).1 = inr progress ∧
              models.UserProgress.UserID progress = userID ∧
              models.UserProgress.Completed progress !! taskID = Some true.
Proof.
  intros Hq Hin. rewrite GetUserProgress_quiet by exact Hq.
  eexists. split; [reflexivity|]. simpl. split; [reflexivity|].
  rewrite completed_lookup, decide_True; [reflexivity|].
  apply elem_of_select_progress, Hin.
Qed.

(** C4. For an existing task, [CompleteTask(u, t)] called twice succeeds both
    times and leaves the store the first call left; [GetUserProgress(u)] then
    maps [t] to [true], and the table holds the completion exactly once. *)
Theorem CompleteTask_idempotent (userID taskID : Z) (w : World) :
  quiet w →
  (∃ t, t ∈ tasks_table (store w) ∧ tasks.id t = taskID) →
  NoDup (user_progress_table (store w)) →
  let w1 := (CompleteTask userID taskID w).2 in
  let w2 := (CompleteTask userID taskID w1).2 in
  (CompleteTask userID taskID w).1 = inr tt ∧
  (CompleteTask userID taskID w1).1 = inr tt ∧
  store w2 = store w1 ∧
  (∃ progress, (GetUserProgress userID w2).1 = inr progress ∧
               models.UserProgress.UserID progress = userID ∧
               models.UserProgress.Completed progress !! taskID = Some true) ∧
  occurrences userID taskID (user_progress_table (store w2)) = 1%nat.
Proof.
  intros Hq Htask Hnd. apply existsb_task in Htask.
  cbv zeta. rewrite (CompleteTask_quiet userID taskID w Hq), Htask.
  cbn [fst snd].
  set (w1 := set_store _ _).
  assert (Hq1 : quiet w1) by (subst w1; still_quiet).
  rewrite (CompleteTask_quiet userID taskID w1 Hq1).
  assert (Htask1 : existsb (λ t, tasks.id t =? taskID) (tasks_table (store w1))
                   = true) by exact Htask.
  rewrite Htask1. cbn [fst snd].
  assert (Hstore : store (set_store
            (with_user_progress
               (insert_user_progress (user_progress.mk userID taskID))
               (store w1)) (skip (skip (skip w1)))) = store w1).
  { subst w1. project. unfold with_user_progress. simpl.
    rewrite insert_user_progress_idemp. reflexivity. }
  split; [reflexivity|]. split; [reflexivity|]. split; [exact Hstore|]. split.
  - apply GetUserProgress_completed; [subst w1; still_quiet|].
    rewrite Hstore. subst w1. project. simpl.
    apply elem_of_insert_user_progress.
  - rewrite Hstore. subst w1. project. simpl.
    apply occurrences_insert_user_progress, Hnd.
Qed.

(** C7. [CompleteTask(userID, taskID)] fails with [ErrTaskNotFound] when no
    task has that id, and then leaves the store, hence the progress of the
    user, as it was; when the task exists the call succeeds and the task is
    complete for the user. *)
Theorem CompleteTask_not_found_or_marked (userID taskID : Z) (w : World) :
  quiet w →
  ((∀ t, t ∈ tasks_table (store w) → tasks.id t ≠ taskID) →
   (CompleteTask userID taskID w).1 = inl ErrTaskNotFound ∧
   store (CompleteTask userID taskID w).2 = store w ∧
   (GetUserProgress userID (CompleteTask userID taskID w).2).1
   = (GetUserProgress userID w).1) ∧
  (∀ t, t ∈ tasks_table (store w) → tasks.id t = taskID →
   (CompleteTask userID taskID w).1 = inr tt ∧
   user_progress.mk userID taskID
     ∈ user_progress_table (store (CompleteTask userID taskID w).2) ∧
   ∃ progress,
     (GetUserProgress userID (CompleteTask userID taskID w).2).1 = inr progress ∧
     models.UserProgress.UserID progress = userID ∧
     models.UserProgress.Completed progress !! taskID = Some true).
Proof.
  intros Hq. rewrite (CompleteTask_quiet userID taskID w Hq). split.
  - intros Hnone.
    destruct (existsb _ _) eqn:He.
    + apply existsb_task in He as (t & Hin & Hid). destruct (Hnone t Hin Hid).
    + cbn [fst snd]. split; [reflexivity|]. split; [reflexivity|].
      rewrite !GetUserProgress_quiet by still_quiet. reflexivity.
  - intros t Hin Hid.
    rewrite (proj2 (existsb_task taskID _)) by (exists t; auto).
    cbn [fst snd]. split; [reflexivity|].
    assert (Hrow : user_progress.mk userID taskID
              ∈ user_progress_table
                  (store (set_store
                     (with_user_progress
                        (insert_user_progress (user_progress.mk userID taskID))
                        (store w)) (skip (skip (skip w)))))).
    { project. simpl. apply elem_of_insert_user_progress. }
    split; [exact Hrow|].
    apply GetUserProgress_completed; [still_quiet | exact Hrow].
Qed.

(** ** Registration *)

Lemma existsb_user username email l :
  existsb (λ r, String.eqb (users.username r) username
                || String.eqb (users.email r) email) l = true ↔
  ∃ r, r ∈ l ∧ (users.username r = username ∨ users.email r = email).
Proof.
  rewrite existsb_exists. split; intros (r & Hin & H); exists r.
  - split; [apply list_elem_of_In, Hin|].
    apply orb_true_iff in H. rewrite !String.eqb_eq in H. exact H.
  - split; [apply list_elem_of_In, Hin|].
    apply orb_true_iff. rewrite !String.eqb_eq. exact H.
Qed.

(** C6. [CreateUser] fails with the conflict error when a stored user has the
    same username or the same email, and then inserts nothing; when no stored
    user has either, the call succeeds and the users are the former ones
    followed by the new row, which carries the candidate's identity. *)
Theorem CreateUser_conflict_or_inserted (user : models.User.t) (w : World) :
  quiet w →
  (∀ r, r ∈ users_table (store w) →
        users.username r = models.User.Username user
        ∨ users.email r = models.User.Email user →
        (CreateUser user w).1 = inl (New "username or email already exists") ∧
        store (CreateUser user w).2 = store w) ∧
  ((∀ r, r ∈ users_table (store w) →
         users.username r ≠ models.User.Username user
         ∧ users.email r ≠ models.User.Email user) →
   (CreateUser user w).1 = inr tt ∧
   ∃ row, users_table (store (CreateUser user w).2)
          = (users_table (store w) ++ [row])%list ∧
          users.username row = models.User.Username user ∧
          users.email row = models.User.Email user ∧
          users.password_hash row = models.User.PasswordHash user ∧
          users.full_name row = models.User.FullName user).
Proof.
  intros Hq. rewrite (CreateUser_quiet user w Hq). split.
  - intros r Hin Hsame.
    rewrite (proj2 (existsb_user _ _ _)) by (exists r; auto).
    split; reflexivity.
  - intros Hfree. destruct (existsb _ _) eqn:He.
    + apply existsb_user in He as (r & Hin & Hsame).
      destruct (Hfree r Hin) as [Hu Hm]. tauto.
    + split; [reflexivity|]. eexists. split; [reflexivity|].
      simpl. auto.
Qed.

(** C10. A successful [CreateUser] stores the new user with [is_active] set,
    whatever the candidate carries; the candidate's [IsActive] and [IsAdmin]
    fields play no part in the call. *)
Theorem CreateUser_stores_active (user : models.User.t) (w : World) :
  ((CreateUser user w).1 = inr tt →
   ∃ row, users_table (store (CreateUser user w).2)
          = (users_table (store w) ++ [row])%list ∧
          users.username row = models.User.Username user ∧
          users.is_active row = true ∧
          users.is_admin row = is_admin_default (store w)) ∧
  ∀ isAdmin isActive,
    CreateUser (models.User.mk (models.User.ID user)
                  (models.User.Username user) (models.User.PasswordHash user)
                  (models.User.Email user) (models.User.FullName user)
                  (models.User.TOTPSecret user) (models.User.Is2FAEnabled user)
                  isAdmin isActive (models.User.LastLogin user)) w
    = CreateUser user w.
Proof.
  split; [|reflexivity].
  unfold CreateUser, select_exists_user, scan_exists. expose.
  destruct (existsb _ _); fork; try discriminate.
  intros _. eexists. split; [reflexivity|]. simpl. auto.
Qed.

(** ** One-time passwords *)

Lemma VerifyOTPCode_store userID code w :
  store (VerifyOTPCode userID code w).2 = store w.
Proof.
  unfold VerifyOTPCode. expose. fork; try reflexivity;
    try (case_decide; reflexivity).
  destruct (select_otp userID (store w)) as [|[[storedCode|] [expiresAt|]] rows];
    cbn [scan_otp]; fork; try reflexivity; try (case_decide; reflexivity).
  destruct (String.eqb storedCode ""); fork; [reflexivity|].
  destruct (expiresAt <? clock w); reflexivity.
Qed.

(** A stored, non-empty code is accepted exactly until it expires. *)
Lemma VerifyOTPCode_true_iff userID code w :
  quiet w →
  (VerifyOTPCode userID code w).1 = inr true ↔
  ∃ expiresAt rows,
    select_otp userID (store w) = (Some code, Some expiresAt) :: rows ∧
    code ≠ "" ∧ clock w ≤ expiresAt.
Proof.
  intros Hq. rewrite (VerifyOTPCode_quiet userID code w Hq).
  destruct (select_otp userID (store w)) as [|[[storedCode|] [expiresAt|]] rows].
  - split; [discriminate | intros (? & ? & [=] & _)].
  - split.
    + intros [= H]. apply andb_true_iff in H as [H Heq].
      apply andb_true_iff in H as [Hne Hexp].
      apply bool_decide_eq_true in Heq. subst storedCode.
      exists expiresAt, rows. split; [reflexivity|]. split.
      * intros ->. discriminate.
      * apply negb_true_iff, Z.ltb_ge in Hexp. exact Hexp.
    + intros (e & r & [= -> -> ->] & Hne & Hexp). f_equal.
      rewrite bool_decide_eq_true_2 by reflexivity.
      rewrite (proj2 (String.eqb_neq _ _) Hne).
      rewrite (proj2 (Z.ltb_ge _ _) Hexp). reflexivity.
  - split; [discriminate | intros (? & ? & [=] & _)].
  - split; [discriminate | intros (? & ? & [=] & _)].
  - split; [discriminate | intros (? & ? & [=] & _)].
Qed.

Lemma select_otp_unknown userID d :
  (∀ r, r ∈ users_table d → users.id r ≠ userID) → select_otp userID d = [].
Proof.
  unfold select_otp. intros H.
  induction (users_table d) as [|r l IH]; [reflexivity|].
  rewrite filter_cons. case_decide as Hr.
  - exfalso. apply (H r); [left | exact Hr].
  - apply IH. intros r' Hr'. apply H. right. exact Hr'.
Qed.

(** For a user id that no stored user has, [VerifyOTPCode] returns [false]
    and no error, and leaves the store as it was. *)
Theorem VerifyOTPCode_unknown_user (userID : Z) (code : string) (w : World) :
  quiet w →
  (∀ r, r ∈ users_table (store w) → users.id r ≠ userID) →
  (VerifyOTPCode userID code w).1 = inr false ∧
  store (VerifyOTPCode userID code w).2 = store w.
Proof.
  intros Hq Hnone. split; [|apply VerifyOTPCode_store].
  rewrite (VerifyOTPCode_quiet userID code w Hq).
  rewrite select_otp_unknown by exact Hnone. reflexivity.
Qed.

Lemma VerifyOTPCode_unknown_user_witness :
  quiet sample.world ∧
  (∀ r, r ∈ users_table (store sample.world) → users.id r ≠ 8) ∧
  (VerifyOTPCode 8 "123456" sample.world).1 = inr false ∧
  store (VerifyOTPCode 8 "123456" sample.world).2 = store sample.world.
Proof.
  assert (Hq : quiet sample.world) by constructor.
  assert (Hnone : ∀ r, r ∈ users_table (store sample.world) → users.id r ≠ 8).
  { intros r Hr. apply list_elem_of_singleton in Hr. subst r. discriminate. }
  split; [exact Hq|]. split; [exact Hnone|].
  apply (VerifyOTPCode_unknown_user 8 "123456" sample.world Hq Hnone).
Defined.

(** C1. With no challenge stored the call does not answer [false]: after
    [SaveOTPCode(7, "123456")] and [ClearOTPCode(7)] both columns hold NULL,
    and [Scan] into a Go [string] turns the NULL into an error, which
    [VerifyOTPCode] hands to its caller. *)
Theorem VerifyOTPCode_cleared_challenge_is_an_error :
  let w1 := (SaveOTPCode 7 "123456" sample.world).2 in
  let w2 := (ClearOTPCode 7 w1).2 in
  (VerifyOTPCode 7 "123456" w1).1 = inr true ∧
  (ClearOTPCode 7 w1).1 = inr tt ∧
  (VerifyOTPCode 7 "123456" w2).1 = inl (ErrScanNull "otp_code").
Proof. vm_compute. repeat split; reflexivity. Qed.

(** *** The two columns move together *)

Lemma users_table_update userID f d :
  users_table (update_users_where_id userID f d)
  = map (λ r, if users.id r =? userID then f r else r) (users_table d).
Proof. reflexivity. Qed.

Lemma otp_invariant_set_otp userID code expires d :
  (code = None ↔ expires = None) →
  otp_invariant d →
  otp_invariant (update_users_where_id userID (users.set_otp code expires) d).
Proof.
  unfold otp_invariant. rewrite users_table_update. intros Hboth H.
  apply Forall_fmap. eapply Forall_impl; [exact H|].
  intros r Hr. simpl. destruct (users.id r =? userID); [exact Hboth | exact Hr].
Qed.

Lemma set_otp_where_id userID code expires d r :
  r ∈ users_table (update_users_where_id userID (users.set_otp code expires) d) →
  users.id r = userID →
  users.otp_code r = code ∧ users.otp_expires_at r = expires.
Proof.
  rewrite users_table_update. intros Hin Hid.
  apply list_elem_of_fmap in Hin as (r0 & -> & _).
  destruct (users.id r0 =? userID) eqn:He; [split; reflexivity|].
  apply Z.eqb_neq in He. contradiction.
Qed.

Lemma update_users_where_id_idemp userID f d :
  (∀ r, f (f r) = f r) → (∀ r, users.id (f r) = users.id r) →
  update_users_where_id userID f (update_users_where_id userID f d)
  = update_users_where_id userID f d.
Proof.
  intros Hf Hid. unfold update_users_where_id, with_users. simpl. f_equal.
  rewrite map_map. apply map_ext. intros r.
  destruct (users.id r =? userID) eqn:He.
  - rewrite Hid, He. apply Hf.
  - rewrite He. reflexivity.
Qed.

Lemma SaveOTPCode_store userID code w :
  store (SaveOTPCode userID code w).2 = store w ∨
  store (SaveOTPCode userID code w).2
  = update_users_where_id userID
      (users.set_otp (Some code) (Some (clock w + 5 * Minute))) (store w).
Proof. unfold SaveOTPCode. expose. fork; auto. Qed.

Lemma ClearOTPCode_store userID w :
  store (ClearOTPCode userID w).2 = store w ∨
  store (ClearOTPCode userID w).2
  = update_users_where_id userID (users.set_otp None None) (store w).
Proof. unfold ClearOTPCode. expose. fork; auto. Qed.

(** C8. Every OTP operation keeps [otp_code] and [otp_expires_at] both set or
    both NULL on every user row.  [SaveOTPCode] sets the two together on the
    rows of the user, the expiry five minutes after the time of the call, and
    leaves every other row and column as it was; [ClearOTPCode] clears the
    two together in the same way, whether or not a challenge is pending, and
    a second [ClearOTPCode] changes nothing. *)
Theorem OTP_operations_keep_both_or_neither
    (userID : Z) (code : string) (w : World) :
  otp_invariant (store w) →
  otp_invariant (store (SaveOTPCode userID code w).2) ∧
  otp_invariant (store (ClearOTPCode userID w).2) ∧
  otp_invariant (store (VerifyOTPCode userID code w).2) ∧
  (quiet w →
   (SaveOTPCode userID code w).1 = inr tt ∧
   users_table (store (SaveOTPCode userID code w).2)
   = map (λ r, if users.id r =? userID
               then {| users.id := users.id r;
                       users.username := users.username r;
                       users.password_hash := users.password_hash r;
                       users.email := users.email r;
                       users.full_name := users.full_name r;
                       users.totp_secret := users.totp_secret r;
                       users.is_2fa_enabled := users.is_2fa_enabled r;
                       users.is_admin := users.is_admin r;
                       users.is_active := users.is_active r;
                       users.last_login := users.last_login r;
                       users.otp_code := Some code;
                       users.otp_expires_at
                         := Some (clock w + 5 * 60 * 1000000000) |}
               else r)
         (users_table (store w)) ∧
   (∀ r, r ∈ users_table (store (SaveOTPCode userID code w).2) →
         users.id r = userID →
         users.otp_code r = Some code ∧
         users.otp_expires_at r = Some (clock w + 5 * 60 * 1000000000)) ∧
   (ClearOTPCode userID w).1 = inr tt ∧
   users_table (store (ClearOTPCode userID w).2)
   = map (λ r, if users.id r =? userID
               then {| users.id := users.id r;
                       users.username := users.username r;
                       users.password_hash := users.password_hash r;
                       users.email := users.email r;
                       users.full_name := users.full_name r;
                       users.totp_secret := users.totp_secret r;
                       users.is_2fa_enabled := users.is_2fa_enabled r;
                       users.is_admin := users.is_admin r;
                       users.is_active := users.is_active r;
                       users.last_login := users.last_login r;
                       users.otp_code := None;
                       users.otp_expires_at := None |}
               else r)
         (users_table (store w)) ∧
   (∀ r, r ∈ users_table (store (ClearOTPCode userID w).2) →
         users.id r = userID →
         users.otp_code r = None ∧ users.otp_expires_at r = None) ∧
   (ClearOTPCode userID (ClearOTPCode userID w).2).1 = inr tt ∧
   store (ClearOTPCode userID (ClearOTPCode userID w).2).2
   = store (ClearOTPCode userID w).2).
Proof.
  intros Hinv.
  split; [|split; [|split]].
  - destruct (SaveOTPCode_store userID code w) as [-> | ->]; [exact Hinv|].
    apply otp_invariant_set_otp; [split; discriminate | exact Hinv].
  - destruct (ClearOTPCode_store userID w) as [-> | ->]; [exact Hinv|].
    apply otp_invariant_set_otp; [tauto | exact Hinv].
  - rewrite VerifyOTPCode_store. exact Hinv.
  - intros Hq.
    rewrite (SaveOTPCode_quiet userID code w Hq),
            (ClearOTPCode_quiet userID w Hq).
    cbn [fst snd]. rewrite ClearOTPCode_quiet by still_quiet. project.
    split; [reflexivity|]. split.
    { rewrite users_table_update. apply map_ext. intros r.
      destruct (users.id r =? userID); reflexivity. }
    split.
    { intros r Hin Hid.
      destruct (set_otp_where_id _ _ _ _ _ Hin Hid) as [-> ->].
      split; reflexivity. }
    split; [reflexivity|]. split.
    { rewrite users_table_update. apply map_ext. intros r.
      destruct (users.id r =? userID); reflexivity. }
    split.
    { intros r Hin Hid. exact (set_otp_where_id _ _ _ _ _ Hin Hid). }
    split; [reflexivity|].
    apply update_users_where_id_idemp; reflexivity.
Qed.

Lemma OTP_operations_keep_both_or_neither_witness :
  let w1 := (SaveOTPCode 7 "123456" sample.world).2 in
  otp_invariant (store sample.world) ∧ quiet sample.world ∧
  otp_invariant (store w1) ∧ quiet w1 ∧
  (SaveOTPCode 7 "123456" sample.world).1 = inr tt ∧
  users_table (store w1)
  = [users.mk 7 "alice" "$2a$10$N9qo8uLOickgx2ZMRZoMye" "a@x.com" "Alice" ""
              false false true None (Some "123456") (Some 300000001000)] ∧
  (ClearOTPCode 7 w1).1 = inr tt ∧
  users_table (store (ClearOTPCode 7 w1).2) = [sample.alice] ∧
  otp_invariant (store (ClearOTPCode 7 w1).2).
Proof.
  cbv zeta.
  assert (Hinv : otp_invariant (store sample.world)).
  { repeat constructor; intros _; reflexivity. }
  assert (Hq : quiet sample.world) by constructor.
  assert (Hq1 : quiet (SaveOTPCode 7 "123456" sample.world).2) by constructor.
  pose proof (OTP_operations_keep_both_or_neither 7 "123456" sample.world Hinv)
    as (Hinv1 & _ & _ & Hquiet).
  destruct (Hquiet Hq) as (Hsave & Hrows & _).
  pose proof (OTP_operations_keep_both_or_neither 7 "123456" _ Hinv1)
    as (_ & Hinv2 & _ & Hquiet1).
  destruct (Hquiet1 Hq1) as (_ & _ & _ & Hclear & Hrows2 & _).
  split; [exact Hinv|]. split; [exact Hq|]. split; [exact Hinv1|].
  split; [exact Hq1|]. split; [exact Hsave|]. split; [exact Hrows|].
  split; [exact Hclear|]. split; [|exact Hinv2].
  rewrite Hrows2, Hrows. reflexivity.
Defined.

(** ** Profile updates *)

Lemma committed_profile_users bcrypt salt userID data d :
  users_table (committed_profile bcrypt salt userID data d)
  = map (λ r, if users.id r =? userID
              then requested_row data
                     (bcrypt salt (models.UpdateProfileRequest.Password data)) r
              else r)
        (users_table d).
Proof.
  unfold committed_profile, requested_row.
  destruct (String.eqb (models.UpdateProfileRequest.Email data) "");
  destruct (String.eqb (models.UpdateProfileRequest.FullName data) "");
  destruct (String.eqb (models.UpdateProfileRequest.Password data) "");
  rewrite ?users_table_update;
  (induction (users_table d) as [|r l IH]; simpl; [reflexivity|]);
  (apply (f_equal2 cons); [|exact IH]);
  destruct (users.id r =? userID) eqn:He; simpl; rewrite ?He; simpl;
  rewrite ?He; destruct r; reflexivity.
Qed.

(** C2. Whenever [UpdateUserProfile] returns an error, whichever statement
    failed, nothing of the call is committed: the store, and with it the
    email, full name and password hash of every user, is what it was. *)
Theorem UpdateUserProfile_error_commits_nothing
    (bcrypt : nat → string → string) (userID : Z)
    (data : models.UpdateProfileRequest.t) (w : World) (e : error) :
  (UpdateUserProfile bcrypt userID data w).1 = inl e →
  store (UpdateUserProfile bcrypt userID data w).2 = store w.
Proof.
  intros Herr.
  destruct (UpdateUserProfile_cases bcrypt userID data w)
    as [(e' & _ & Hstore) | [Hok _]]; [exact Hstore | congruence].
Qed.

Lemma UpdateUserProfile_error_commits_nothing_witness :
  (UpdateUserProfile sample.bcrypt 7 sample_faults.request sample_faults.world).1
  = inl (ErrDriver "deadlock") ∧
  store (UpdateUserProfile sample.bcrypt 7 sample_faults.request
           sample_faults.world).2
  = store sample_faults.world.
Proof.
  assert (Herr : (UpdateUserProfile sample.bcrypt 7 sample_faults.request
                    sample_faults.world).1 = inl (ErrDriver "deadlock"))
    by (vm_compute; reflexivity).
  split; [exact Herr|].
  exact (UpdateUserProfile_error_commits_nothing _ _ _ _ _ Herr).
Defined.

(** The failing call above rolls nothing back: its transaction stays open,
    holding the email it had already written. *)
Example UpdateUserProfile_failure_leaves_transaction_open :
  let w' := (UpdateUserProfile sample.bcrypt 7 sample_faults.request
               sample_faults.world).2 in
  (users.email <$> users_table (store w')) = ["a@x.com"] ∧
  ((λ d, users.email <$> users_table d) <$> txs w' !! 0%nat)
  = Some ["alice@x.com"].
Proof. vm_compute. split; reflexivity. Qed.

(** C5. A field that is empty in the request is left as stored, for every
    user and however the call ends; a call that succeeds, as it does when
    nothing fails, replaces on the rows of [userID] exactly the non-empty
    fields, the password by its hash. *)
Theorem UpdateUserProfile_applies_nonempty_fields_only
    (bcrypt : nat → string → string) (userID : Z)
    (data : models.UpdateProfileRequest.t) (w : World) :
  let result := UpdateUserProfile bcrypt userID data w in
  (models.UpdateProfileRequest.Email data = "" →
   map users.email (users_table (store result.2))
   = map users.email (users_table (store w))) ∧
  (models.UpdateProfileRequest.FullName data = "" →
   map users.full_name (users_table (store result.2))
   = map users.full_name (users_table (store w))) ∧
  (models.UpdateProfileRequest.Password data = "" →
   map users.password_hash (users_table (store result.2))
   = map users.password_hash (users_table (store w))) ∧
  (quiet w → result.1 = inr tt) ∧
  (result.1 = inr tt →
   users_table (store result.2)
   = map (λ r, if users.id r =? userID
               then requested_row data
                      (bcrypt (entropy w)
                              (models.UpdateProfileRequest.Password data)) r
               else r)
         (users_table (store w))).
Proof.
  cbv zeta.
  destruct (UpdateUserProfile_cases bcrypt userID data w)
    as [(e & Herr & ->) | [Hok ->]].
  - repeat split; try reflexivity.
    + intros Hq. destruct (UpdateUserProfile_quiet bcrypt userID data w Hq).
      congruence.
    + congruence.
  - rewrite committed_profile_users, !map_map. repeat split.
    + intros He. apply map_ext. intros r. unfold requested_row. rewrite He.
      destruct (users.id r =? userID); reflexivity.
    + intros He. apply map_ext. intros r. unfold requested_row. rewrite He.
      destruct (users.id r =? userID); reflexivity.
    + intros He. apply map_ext. intros r. unfold requested_row. rewrite He.
      destruct (users.id r =? userID); reflexivity.
    + intros _. exact Hok.
Qed.

(** The request of the specification: only the full name changes. *)
Example UpdateUserProfile_full_name_only :
  users_table
    (store (UpdateUserProfile sample.bcrypt 7
              (models.UpdateProfileRequest.mk "" "new" "") sample.world).2)
  = [users.set_full_name "new" sample.alice].
Proof. vm_compute. reflexivity. Qed.

(** ** The theorems at work on the sample store *)

Lemma sample_world_quiet : quiet sample.world.
Proof. constructor. Qed.

Lemma GetCourseByID_not_found_or_sorted_tasks_witness :
  quiet sample.world ∧
  (GetCourseByID 3 sample.world).1 = inl ErrCourseNotFound ∧
  ∃ course, (GetCourseByID 1 sample.world).1 = inr course ∧
            models.Course.ID course = 1 ∧
            models.Course.Tasks course
            ≡ₚ [models.Task.mk 10 1 "Stored" "" "hard" 2;
                models.Task.mk 11 1 "Reflected" "" "easy" 1] ∧
            StronglySorted ascending (models.Course.Tasks course).
Proof.
  split; [exact sample_world_quiet|]. split.
  - apply (GetCourseByID_not_found_or_sorted_tasks 3 sample.world
             sample_world_quiet).
    intros c Hc. apply list_elem_of_singleton in Hc. subst c. discriminate.
  - destruct (proj2 (GetCourseByID_not_found_or_sorted_tasks 1 sample.world
                       sample_world_quiet)
                (courses.mk 1 "XSS" "Cross-site scripting"))
      as (course & Hcourse & Hid & _ & Htasks & Hsorted).
    + left.
    + reflexivity.
    + exists course. split; [exact Hcourse|]. split; [exact Hid|].
      split; [exact Htasks | exact Hsorted].
Defined.

Lemma CompleteTask_idempotent_witness :
  quiet sample.world ∧
  (∃ t, t ∈ tasks_table (store sample.world) ∧ tasks.id t = 10) ∧
  NoDup (user_progress_table (store sample.world)) ∧
  let w1 := (CompleteTask 7 10 sample.world).2 in
  let w2 := (CompleteTask 7 10 w1).2 in
  (CompleteTask 7 10 w1).1 = inr tt ∧
  store w2 = store w1 ∧
  occurrences 7 10 (user_progress_table (store w2)) = 1%nat.
Proof.
  assert (Htask : ∃ t, t ∈ tasks_table (store sample.world) ∧ tasks.id t = 10).
  { eexists. split; [left | reflexivity]. }
  assert (Hnd : NoDup (user_progress_table (store sample.world)))
    by constructor.
  split; [exact sample_world_quiet|]. split; [exact Htask|].
  split; [exact Hnd|].
  pose proof (CompleteTask_idempotent 7 10 sample.world sample_world_quiet
                Htask Hnd) as (_ & Hsecond & Hstore & _ & Honce).
  split; [exact Hsecond|]. split; [exact Hstore | exact Honce].
Defined.

Lemma CompleteTask_not_found_or_marked_witness :
  quiet sample.world ∧
  (CompleteTask 1 9999 sample.world).1 = inl ErrTaskNotFound ∧
  store (CompleteTask 1 9999 sample.world).2 = store sample.world ∧
  (CompleteTask 7 11 sample.world).1 = inr tt.
Proof.
  split; [exact sample_world_quiet|].
  destruct (CompleteTask_not_found_or_marked 1 9999 sample.world
              sample_world_quiet) as [Hnone _].
  destruct (CompleteTask_not_found_or_marked 7 11 sample.world
              sample_world_quiet) as [_ Hsome].
  destruct Hnone as (Herr & Hstore & _).
  { intros t Ht. simpl in Ht.
    repeat (apply elem_of_cons in Ht as [-> | Ht]; [discriminate|]).
    inversion Ht. }
  destruct (Hsome (tasks.mk 11 1 "Reflected" "" "easy" 1)) as (Hok & _).
  { right. left. }
  { reflexivity. }
  split; [exact Herr|]. split; [exact Hstore | exact Hok].
Defined.

(** Registering "alice"/"a@x.com" on an empty store succeeds; registering
    "alice"/"b@x.com" after that is a conflict. *)
Lemma CreateUser_conflict_or_inserted_witness :
  let empty := mkWorld (mkDB [] [] [] [] 1 false) ∅ 0 [] 0 0 in
  let first := models.User.mk 0 "alice" "$2a$10$h" "a@x.com" "" "" false false false 0 in
  let second := models.User.mk 0 "alice" "$2a$10$h" "b@x.com" "" "" false false false 0 in
  quiet empty ∧
  (CreateUser first empty).1 = inr tt ∧
  quiet (CreateUser first empty).2 ∧
  (CreateUser second (CreateUser first empty).2).1
  = inl (New "username or email already exists").
Proof.
  cbv zeta.
  set (empty := mkWorld (mkDB [] [] [] [] 1 false) ∅ 0 [] 0 0).
  set (first := models.User.mk 0 "alice" "$2a$10$h" "a@x.com" "" "" false false false 0).
  set (second := models.User.mk 0 "alice" "$2a$10$h" "b@x.com" "" "" false false false 0).
  assert (Hq : quiet empty) by constructor.
  assert (Hq' : quiet (CreateUser first empty).2) by constructor.
  split; [exact Hq|].
  split.
  - apply (proj2 (CreateUser_conflict_or_inserted first empty Hq)).
    intros r Hr. inversion Hr.
  - split; [exact Hq'|].
    apply (proj1 (CreateUser_conflict_or_inserted second _ Hq')
             (users.mk 1 "alice" "$2a$10$h" "a@x.com" "" "" false false true
                       None None None)).
    + left.
    + left. reflexivity.
Defined.

(** A code saved at time [t] is accepted up to [t] plus five minutes and
    refused from the next instant on. *)
Example VerifyOTPCode_until_expiry :
  let w1 := (SaveOTPCode 7 "123456" sample.world).2 in
  (VerifyOTPCode 7 "123456" w1).1 = inr true ∧
  (VerifyOTPCode 7 "654321" w1).1 = inr false ∧
  (VerifyOTPCode 7 "123456" (sample.later (5 * Minute) w1)).1 = inr true ∧
  (VerifyOTPCode 7 "123456" (sample.later (5 * Minute + 1) w1)).1 = inr false.
Proof. vm_compute. repeat split; reflexivity. Qed.

(** A user who never had a challenge is in the state [ClearOTPCode] leaves. *)
Example VerifyOTPCode_no_challenge_yet :
  (VerifyOTPCode 7 "123456" sample.world).1 = inl (ErrScanNull "otp_code").
Proof. vm_compute. reflexivity. Qed.

(** * Further properties of the storage layer *)

(** ** The remaining methods when nothing fails *)

Lemma prepare_exec_quiet (update : DB → DB) w :
  quiet w →
  (sql.Prepare;; sql.Exec update) w
  = (inr tt, set_store (update (store w)) (skip (skip w))).
Proof. intros Hq. expose. calm. reflexivity. Qed.

Lemma prepare_exec_store (update : DB → DB) w :
  store ((sql.Prepare;; sql.Exec update) w).2 = store w ∨
  ((sql.Prepare;; sql.Exec update) w).1 = inr tt ∧
  store ((sql.Prepare;; sql.Exec update) w).2 = update (store w).
Proof. expose. fork; auto. Qed.

Lemma UpdateUserLastLogin_quiet userID w :
  quiet w →
  UpdateUserLastLogin userID w
  = (inr tt,
     set_store (update_users_where_id userID
                  (users_set_last_login (Some (clock w))) (store w))
               (skip (skip w))).
Proof. intros Hq. unfold UpdateUserLastLogin. expose. calm. reflexivity. Qed.

Lemma UpdateUserLastLogin_store userID w :
  store (UpdateUserLastLogin userID w).2 = store w ∨
  (UpdateUserLastLogin userID w).1 = inr tt ∧
  store (UpdateUserLastLogin userID w).2
  = update_users_where_id userID (users_set_last_login (Some (clock w)))
      (store w).
Proof. unfold UpdateUserLastLogin. expose. fork; auto. Qed.

Lemma GetCourses_quiet w :
  quiet w → GetCourses w = (inr (select_courses (store w)), skip (skip (skip w))).
Proof. intros Hq. unfold GetCourses. expose. calm. reflexivity. Qed.

Lemma GetAllUsers_quiet w :
  quiet w →
  GetAllUsers w
  = (inr (map scan_user_listed (users_table (store w))), skip (skip (skip w))).
Proof. intros Hq. unfold GetAllUsers. expose. calm. reflexivity. Qed.

Lemma GetUsersByRole_quiet isAdmin w :
  quiet w →
  GetUsersByRole isAdmin w
  = (inr (map scan_user_listed (select_users_by_role isAdmin (store w))),
     skip (skip (skip w))).
Proof. intros Hq. unfold GetUsersByRole. expose. calm. reflexivity. Qed.

Lemma SearchUsers_quiet query w :
  quiet w →
  SearchUsers query w
  = (inr (map scan_user_listed
            (select_users_like ("%" ++ query ++ "%") (store w))),
     skip (skip (skip w))).
Proof. intros Hq. unfold SearchUsers. expose. calm. reflexivity. Qed.

Lemma GetUserByID_quiet id w :
  quiet w →
  (GetUserByID id w).1
  = match select_user_by_id id (store w) with
    | [] => inl (New "user not found")
    | r :: _ => scan_user r
    end.
Proof.
  intros Hq. unfold GetUserByID. expose. calm.
  destruct (select_user_by_id id (store w)); calm; reflexivity.
Qed.

Lemma GetUserByUsername_quiet username w :
  quiet w →
  (GetUserByUsername username w).1
  = match select_user_by_username username (store w) with
    | [] => inl (New "user not found")
    | r :: _ => scan_user r
    end.
Proof.
  intros Hq. unfold GetUserByUsername. expose. calm.
  destruct (select_user_by_username username (store w)); calm; reflexivity.
Qed.

Lemma IsAdmin_quiet userID w :
  quiet w →
  (IsAdmin userID w).1
  = match select_is_admin userID (store w) with
    | [] => inl (New "user not found")
    | isAdmin :: _ => inr isAdmin
    end.
Proof.
  intros Hq. unfold IsAdmin. expose. calm.
  destruct (select_is_admin userID (store w)); calm; reflexivity.
Qed.

(** A failing external call reports a driver error, nothing else. *)
Lemma outcome_inl w e : outcome w = inl e → ∃ msg, e = ErrDriver msg.
Proof.
  unfold outcome. destruct (faults w) as [|[msg|] fs]; try discriminate.
  intros [= <-]. eauto.
Qed.

(** [follow] is [fork] that remembers what each failing call reported. *)
Ltac follow :=
  repeat first
    [ rewrite lookup_insert_eq
    | progress (cbv beta iota)
    | progress project
    | match goal with
      | |- context [match outcome ?w with _ => _ end] =>
          let H := fresh "Hcall" in
          destruct (outcome w) as [?|[]] eqn:H;
          [apply outcome_inl in H as [? ->]|]
      end ].
(** ** Updates keyed by a user id *)

Lemma filter_id_nil userID (l : list users.row) :
  (∀ r, r ∈ l → users.id r ≠ userID) →
  filter (λ r, users.id r = userID) l = [].
Proof.
  intros H. induction l as [|r l IH]; [reflexivity|].
  rewrite filter_cons. case_decide as Hr.
  - exfalso. apply (H r); [left | exact Hr].
  - apply IH. intros r' Hr'. apply H. right. exact Hr'.
Qed.

Lemma filter_id_cons userID (l : list users.row) r :
  r ∈ l → users.id r = userID →
  ∃ r' l', filter (λ r, users.id r = userID) l = r' :: l' ∧
           r' ∈ l ∧ users.id r' = userID.
Proof.
  intros Hin Hid. induction l as [|r0 l IH]; [inversion Hin|].
  rewrite filter_cons. case_decide as Hr.
  - eexists _, _. split; [reflexivity|]. split; [left | exact Hr].
  - apply elem_of_cons in Hin as [->|Hin]; [contradiction|].
    destruct (IH Hin) as (r' & l' & -> & Hin' & Hid').
    eexists _, _. split; [reflexivity|]. split; [right; exact Hin' | exact Hid'].
Qed.

Lemma update_users_unknown userID f d :
  (∀ r, r ∈ users_table d → users.id r ≠ userID) →
  update_users_where_id userID f d = d.
Proof.
  intros H. destruct d as [us cs ts ps n a]. unfold update_users_where_id,
    with_users. simpl in *. f_equal.
  induction us as [|r us IH]; [reflexivity|]. simpl.
  rewrite (proj2 (Z.eqb_neq _ _)) by (apply H; left).
  f_equal. apply IH. intros r' Hr'. apply H. right. exact Hr'.
Qed.

Lemma committed_profile_unknown bcrypt salt userID data d :
  (∀ r, r ∈ users_table d → users.id r ≠ userID) →
  committed_profile bcrypt salt userID data d = d.
Proof.
  intros H. unfold committed_profile.
  destruct (String.eqb (models.UpdateProfileRequest.Email data) "");
  destruct (String.eqb (models.UpdateProfileRequest.FullName data) "");
  destruct (String.eqb (models.UpdateProfileRequest.Password data) "");
  cbv zeta; rewrite ?(update_users_unknown userID _ d) by exact H; reflexivity.
Qed.

(** X1. An update for a user id that no row has is not an error: each of the
    eight updating methods succeeds and leaves the store as it was. *)
Theorem updates_of_unknown_user_succeed_and_change_nothing
    (bcrypt : nat → string → string) (userID : Z) (code : string)
    (isActive : bool) (data : models.UpdateProfileRequest.t) (w : World) :
  quiet w →
  (∀ r, r ∈ users_table (store w) → users.id r ≠ userID) →
  ((SaveOTPCode userID code w).1 = inr tt ∧
   store (SaveOTPCode userID code w).2 = store w) ∧
  ((ClearOTPCode userID w).1 = inr tt ∧
   store (ClearOTPCode userID w).2 = store w) ∧
  ((Enable2FA userID w).1 = inr tt ∧
   store (Enable2FA userID w).2 = store w) ∧
  ((PromoteToAdmin userID w).1 = inr tt ∧
   store (PromoteToAdmin userID w).2 = store w) ∧
  ((DemoteFromAdmin userID w).1 = inr tt ∧
   store (DemoteFromAdmin userID w).2 = store w) ∧
  ((UpdateUserStatus userID isActive w).1 = inr tt ∧
   store (UpdateUserStatus userID isActive w).2 = store w) ∧
  ((UpdateUserLastLogin userID w).1 = inr tt ∧
   store (UpdateUserLastLogin userID w).2 = store w) ∧
  ((UpdateUserProfile bcrypt userID data w).1 = inr tt ∧
   store (UpdateUserProfile bcrypt userID data w).2 = store w).
Proof.
  intros Hq Hnone.
  rewrite SaveOTPCode_quiet, ClearOTPCode_quiet, UpdateUserLastLogin_quiet
    by exact Hq.
  unfold Enable2FA, PromoteToAdmin, DemoteFromAdmin, UpdateUserStatus.
  rewrite !prepare_exec_quiet by exact Hq. project.
  rewrite !update_users_unknown by exact Hnone.
  destruct (UpdateUserProfile_quiet bcrypt userID data w Hq) as [-> ->].
  rewrite committed_profile_unknown by exact Hnone.
  repeat split; reflexivity.
Qed.

Lemma updates_of_unknown_user_succeed_and_change_nothing_witness :
  quiet sample.world ∧
  (∀ r, r ∈ users_table (store sample.world) → users.id r ≠ 8) ∧
  (PromoteToAdmin 8 sample.world).1 = inr tt ∧
  store (PromoteToAdmin 8 sample.world).2 = store sample.world.
Proof.
  assert (Hq : quiet sample.world) by constructor.
  assert (Hnone : ∀ r, r ∈ users_table (store sample.world) → users.id r ≠ 8).
  { intros r Hr. apply list_elem_of_singleton in Hr. subst r. discriminate. }
  split; [exact Hq|]. split; [exact Hnone|].
  exact (proj1 (proj2 (proj2 (proj2
    (updates_of_unknown_user_succeed_and_change_nothing
       sample.bcrypt 8 "" true sample_faults.request sample.world Hq Hnone))))).
Defined.

(** ** The admin flag *)

Lemma select_is_admin_update userID isAdmin d :
  select_is_admin userID
    (update_users_where_id userID (users_set_is_admin isAdmin) d)
  = map (λ _, isAdmin) (select_is_admin userID d).
Proof.
  unfold select_is_admin. rewrite users_table_update.
  induction (users_table d) as [|r l IH]; [reflexivity|].
  simpl. rewrite !filter_cons.
  destruct (users.id r =? userID) eqn:He.
  - apply Z.eqb_eq in He. simpl. rewrite !decide_True by exact He.
    simpl. f_equal. exact IH.
  - apply Z.eqb_neq in He. rewrite !decide_False by exact He. exact IH.
Qed.

Lemma select_is_admin_known userID d r :
  r ∈ users_table d → users.id r = userID →
  ∃ isAdmin rest, select_is_admin userID d = isAdmin :: rest.
Proof.
  intros Hin Hid. unfold select_is_admin.
  destruct (filter_id_cons userID _ r Hin Hid) as (r' & l' & -> & _).
  simpl. eauto.
Qed.

(** X2. For a stored user, [IsAdmin] answers [true] after [PromoteToAdmin] and
    [false] after [DemoteFromAdmin], whatever the flag was and whatever was
    called before; promoting twice is promoting once. *)
Theorem IsAdmin_after_PromoteToAdmin_and_DemoteFromAdmin
    (userID : Z) (w : World) :
  quiet w →
  (∃ r, r ∈ users_table (store w) ∧ users.id r = userID) →
  (PromoteToAdmin userID w).1 = inr tt ∧
  (IsAdmin userID (PromoteToAdmin userID w).2).1 = inr true ∧
  (DemoteFromAdmin userID w).1 = inr tt ∧
  (IsAdmin userID (DemoteFromAdmin userID w).2).1 = inr false ∧
  (IsAdmin userID (DemoteFromAdmin userID (PromoteToAdmin userID w).2).2).1
  = inr false ∧
  store (PromoteToAdmin userID (PromoteToAdmin userID w).2).2
  = store (PromoteToAdmin userID w).2.
Proof.
  intros Hq (r & Hin & Hid).
  destruct (select_is_admin_known userID (store w) r Hin Hid)
    as (b & rest & Hsel).
  unfold PromoteToAdmin, DemoteFromAdmin.
  rewrite !(prepare_exec_quiet _ w) by exact Hq. cbn [fst snd].
  rewrite !prepare_exec_quiet by still_quiet. cbn [fst snd].
  rewrite !IsAdmin_quiet by still_quiet. project.
  rewrite !select_is_admin_update, Hsel. simpl.
  repeat split; try reflexivity.
  apply update_users_where_id_idemp; reflexivity.
Qed.

Lemma IsAdmin_after_PromoteToAdmin_and_DemoteFromAdmin_witness :
  quiet sample.world ∧
  (∃ r, r ∈ users_table (store sample.world) ∧ users.id r = 7) ∧
  (IsAdmin 7 (PromoteToAdmin 7 sample.world).2).1 = inr true ∧
  (IsAdmin 7 (DemoteFromAdmin 7 sample.world).2).1 = inr false.
Proof.
  assert (Hq : quiet sample.world) by constructor.
  assert (Hex : ∃ r, r ∈ users_table (store sample.world) ∧ users.id r = 7).
  { exists sample.alice. split; [left | reflexivity]. }
  split; [exact Hq|]. split; [exact Hex|].
  pose proof (IsAdmin_after_PromoteToAdmin_and_DemoteFromAdmin 7 sample.world
                Hq Hex) as (_ & Hp & _ & Hd & _).
  split; [exact Hp | exact Hd].
Defined.
(** ** Looking a user up *)

Lemma filter_nil_none {A} (P : A → Prop) `{!∀ x, Decision (P x)} (l : list A) :
  filter P l = [] → ∀ x, x ∈ l → ¬ P x.
Proof.
  intros Hnil x Hin HP.
  assert (Hx : x ∈ filter P l) by (apply list_elem_of_filter; auto).
  rewrite Hnil in Hx. inversion Hx.
Qed.

Lemma filter_none_nil {A} (P : A → Prop) `{!∀ x, Decision (P x)} (l : list A) :
  (∀ x, x ∈ l → ¬ P x) → filter P l = [].
Proof.
  intros Hnone. induction l as [|x l IH]; [reflexivity|].
  rewrite filter_cons, decide_False by (apply Hnone; left).
  apply IH. intros y Hy. apply Hnone. right. exact Hy.
Qed.

Lemma filter_head {A} (P : A → Prop) `{!∀ x, Decision (P x)} (l : list A) x l' :
  filter P l = x :: l' → x ∈ l ∧ P x.
Proof.
  intros Hsel. assert (Hx : x ∈ filter P l) by (rewrite Hsel; left).
  apply list_elem_of_filter in Hx. tauto.
Qed.

(** X3. When nothing fails, [GetUserByID], [IsAdmin] and [GetUserByUsername]
    answer "user not found" for an id, respectively a username, that no row
    has. *)
Theorem lookups_of_unknown_user_are_not_found
    (id : Z) (username : string) (w : World) :
  quiet w →
  ((∀ r, r ∈ users_table (store w) → users.id r ≠ id) →
   (GetUserByID id w).1 = inl (New "user not found") ∧
   (IsAdmin id w).1 = inl (New "user not found")) ∧
  ((∀ r, r ∈ users_table (store w) → users.username r ≠ username) →
   (GetUserByUsername username w).1 = inl (New "user not found")).
Proof.
  intros Hq. split.
  - intros Hnone. rewrite GetUserByID_quiet, IsAdmin_quiet by exact Hq.
    unfold select_user_by_id, select_is_admin.
    rewrite filter_id_nil by exact Hnone. split; reflexivity.
  - intros Hnone. rewrite GetUserByUsername_quiet by exact Hq.
    unfold select_user_by_username.
    rewrite filter_none_nil by exact Hnone. reflexivity.
Qed.

Lemma lookups_of_unknown_user_are_not_found_witness :
  quiet sample.world ∧
  (GetUserByID 8 sample.world).1 = inl (New "user not found") ∧
  (GetUserByUsername "bob" sample.world).1 = inl (New "user not found").
Proof.
  assert (Hq : quiet sample.world) by constructor.
  destruct (lookups_of_unknown_user_are_not_found 8 "bob" sample.world Hq)
    as [Hid Hname].
  split; [exact Hq|]. split.
  - apply Hid. intros r Hr. apply list_elem_of_singleton in Hr. subst r.
    discriminate.
  - apply Hname. intros r Hr. apply list_elem_of_singleton in Hr. subst r.
    discriminate.
Defined.

(** X4. However the external calls fare, "user not found" is only ever
    answered when no row matches: a failure of the driver is never reported
    as a missing user. *)
Theorem user_not_found_means_no_row (id : Z) (username : string) (w : World) :
  ((GetUserByID id w).1 = inl (New "user not found") →
   ∀ r, r ∈ users_table (store w) → users.id r ≠ id) ∧
  ((IsAdmin id w).1 = inl (New "user not found") →
   ∀ r, r ∈ users_table (store w) → users.id r ≠ id) ∧
  ((GetUserByUsername username w).1 = inl (New "user not found") →
   ∀ r, r ∈ users_table (store w) → users.username r ≠ username).
Proof.
  split; [|split].
  - unfold GetUserByID. expose. follow; try discriminate.
    destruct (select_user_by_id id (store w)) as [|r0 l] eqn:Hsel;
      follow; [|discriminate].
    intros _. exact (filter_nil_none _ _ Hsel).
  - unfold IsAdmin. expose. follow; try discriminate.
    unfold select_is_admin.
    destruct (filter _ (users_table (store w))) as [|r0 l] eqn:Hsel;
      follow; [|discriminate].
    intros _. exact (filter_nil_none _ _ Hsel).
  - unfold GetUserByUsername. expose. follow; try discriminate.
    destruct (select_user_by_username username (store w)) as [|r0 l] eqn:Hsel;
      follow; [|discriminate].
    intros _. exact (filter_nil_none _ _ Hsel).
Qed.

(** X5. A user returned by [GetUserByID] or [GetUserByUsername] shows the
    identity columns of a stored row with that id, respectively that
    username, and never the role, the status or the last login: [IsAdmin]
    and [IsActive] are [false] and [LastLogin] is the zero time, whatever
    the row holds. *)
Theorem GetUserByID_and_GetUserByUsername_leave_flags_zero
    (id : Z) (username : string) (w : World) (user : models.User.t) :
  ((GetUserByID id w).1 = inr user →
   (∃ r, r ∈ users_table (store w) ∧ users.id r = id ∧ shows user r) ∧
   models.User.IsAdmin user = false ∧ models.User.IsActive user = false ∧
   models.User.LastLogin user = 0) ∧
  ((GetUserByUsername username w).1 = inr user →
   (∃ r, r ∈ users_table (store w) ∧ users.username r = username ∧
         shows user r) ∧
   models.User.IsAdmin user = false ∧ models.User.IsActive user = false ∧
   models.User.LastLogin user = 0).
Proof.
  split.
  - unfold GetUserByID. expose. follow; try discriminate.
    destruct (select_user_by_id id (store w)) as [|r0 l] eqn:Hsel;
      follow; [discriminate|].
    intros [= <-]. apply filter_head in Hsel as [Hin Hid].
    split; [|auto]. exists r0. unfold shows. simpl. auto 10.
  - unfold GetUserByUsername. expose. follow; try discriminate.
    destruct (select_user_by_username username (store w)) as [|r0 l] eqn:Hsel;
      follow; [discriminate|].
    intros [= <-]. apply filter_head in Hsel as [Hin Hid].
    split; [|auto]. exists r0. unfold shows. simpl. auto 10.
Qed.

(** X6. A user registered by [CreateUser] is found by [GetUserByUsername],
    with the id the store assigned and the candidate's username, password
    hash, email, full name, TOTP secret and 2FA flag. *)
Theorem CreateUser_then_GetUserByUsername (user : models.User.t) (w : World) :
  quiet w →
  (∀ r, r ∈ users_table (store w) →
        users.username r ≠ models.User.Username user
        ∧ users.email r ≠ models.User.Email user) →
  (CreateUser user w).1 = inr tt ∧
  (GetUserByUsername (models.User.Username user) (CreateUser user w).2).1
  = inr (models.User.mk (users_auto_increment (store w))
           (models.User.Username user) (models.User.PasswordHash user)
           (models.User.Email user) (models.User.FullName user)
           (models.User.TOTPSecret user) (models.User.Is2FAEnabled user)
           false false 0).
Proof.
  intros Hq Hfree. rewrite (CreateUser_quiet user w Hq).
  destruct (existsb _ _) eqn:He.
  { apply existsb_user in He as (r & Hin & Hsame).
    destruct (Hfree r Hin). tauto. }
  split; [reflexivity|]. cbn [snd].
  rewrite GetUserByUsername_quiet by still_quiet. project.
  unfold select_user_by_username, insert_user. cbn [users_table].
  rewrite filter_app, filter_none_nil by (intros r Hr; apply (Hfree r Hr)).
  rewrite filter_cons, decide_True by reflexivity. reflexivity.
Qed.

Lemma CreateUser_then_GetUserByUsername_witness :
  let bob := models.User.mk 0 "bob" "$2a$10$h" "b@x.com" "Bob" "" false true true 0 in
  quiet sample.world ∧
  (GetUserByUsername "bob" (CreateUser bob sample.world).2).1
  = inr (models.User.mk 8 "bob" "$2a$10$h" "b@x.com" "Bob" "" false false false 0).
Proof.
  cbv zeta.
  assert (Hq : quiet sample.world) by constructor.
  split; [exact Hq|].
  apply (CreateUser_then_GetUserByUsername
           (models.User.mk 0 "bob" "$2a$10$h" "b@x.com" "Bob" "" false true true 0)
           sample.world Hq).
  intros r Hr. apply list_elem_of_singleton in Hr. subst r.
  split; discriminate.
Defined.
(** ** The listings *)

Lemma scan_user_listed_filter (P : users.row → Prop) (Q : models.User.t → Prop)
    `{!∀ r, Decision (P r)} `{!∀ u, Decision (Q u)} (l : list users.row) :
  (∀ r, P r ↔ Q (scan_user_listed r)) →
  map scan_user_listed (filter P l) = filter Q (map scan_user_listed l).
Proof.
  intros HPQ. induction l as [|r l IH]; [reflexivity|].
  simpl. rewrite !filter_cons.
  destruct (decide (P r)) as [HP|HP].
  - rewrite decide_True by (apply HPQ, HP). simpl. f_equal. exact IH.
  - rewrite decide_False by (rewrite <- HPQ; exact HP). exact IH.
Qed.

(** X7. [GetUsersByRole(isAdmin)] lists exactly the users [GetAllUsers] lists
    whose [IsAdmin] is [isAdmin], in the same order; with no such user the
    list is empty and there is no error. *)
Theorem GetUsersByRole_filters_GetAllUsers (isAdmin : bool) (w : World) :
  quiet w →
  ∃ all, (GetAllUsers w).1 = inr all ∧
         length all = length (users_table (store w)) ∧
         (GetUsersByRole isAdmin w).1
         = inr (filter (λ u, models.User.IsAdmin u = isAdmin) all).
Proof.
  intros Hq. rewrite GetAllUsers_quiet, GetUsersByRole_quiet by exact Hq.
  eexists. split; [reflexivity|]. split; [apply length_map|].
  cbn [fst]. f_equal. unfold select_users_by_role.
  apply scan_user_listed_filter. intros r. reflexivity.
Qed.

Lemma GetUsersByRole_filters_GetAllUsers_witness :
  quiet sample.world ∧
  ∃ all, (GetAllUsers sample.world).1 = inr all ∧
         length all = 1%nat ∧
         (GetUsersByRole true sample.world).1
         = inr (filter (λ u, models.User.IsAdmin u = true) all).
Proof.
  assert (Hq : quiet sample.world) by constructor.
  split; [exact Hq|].
  exact (GetUsersByRole_filters_GetAllUsers true sample.world Hq).
Defined.

Lemma users_table_update_listed userID f (g : models.User.t → models.User.t) d :
  (∀ r, users.id r = userID → scan_user_listed (f r) = g (scan_user_listed r)) →
  map scan_user_listed (users_table (update_users_where_id userID f d))
  = map (λ u, if models.User.ID u =? userID then g u else u)
        (map scan_user_listed (users_table d)).
Proof.
  intros Hfg. rewrite users_table_update, !map_map. apply map_ext. intros r.
  change (models.User.ID (scan_user_listed r)) with (users.id r).
  destruct (users.id r =? userID) eqn:He; [|reflexivity].
  apply Hfg, Z.eqb_eq, He.
Qed.

(** X8. What the four flag updates and the login stamp do, seen through
    [GetAllUsers]: on the users with the given id [UpdateUserStatus] sets
    [IsActive], [PromoteToAdmin] and [DemoteFromAdmin] set [IsAdmin],
    [Enable2FA] sets [Is2FAEnabled] and [UpdateUserLastLogin] sets
    [LastLogin] to the time of the call; every other field and every other
    user is listed as before. *)
Theorem GetAllUsers_after_an_update
    (userID : Z) (isActive : bool) (w : World) :
  quiet w →
  let listed_with (g : models.User.t → models.User.t) :=
    inr (map (λ u, if models.User.ID u =? userID then g u else u)
             (map scan_user_listed (users_table (store w))))
      : error + list models.User.t in
  (GetAllUsers w).1 = inr (map scan_user_listed (users_table (store w))) ∧
  (GetAllUsers (UpdateUserStatus userID isActive w).2).1
  = listed_with (λ u, models.User.mk
      (models.User.ID u) (models.User.Username u) (models.User.PasswordHash u)
      (models.User.Email u) (models.User.FullName u) (models.User.TOTPSecret u)
      (models.User.Is2FAEnabled u) (models.User.IsAdmin u) isActive
      (models.User.LastLogin u)) ∧
  (GetAllUsers (PromoteToAdmin userID w).2).1
  = listed_with (λ u, models.User.mk
      (models.User.ID u) (models.User.Username u) (models.User.PasswordHash u)
      (models.User.Email u) (models.User.FullName u) (models.User.TOTPSecret u)
      (models.User.Is2FAEnabled u) true (models.User.IsActive u)
      (models.User.LastLogin u)) ∧
  (GetAllUsers (DemoteFromAdmin userID w).2).1
  = listed_with (λ u, models.User.mk
      (models.User.ID u) (models.User.Username u) (models.User.PasswordHash u)
      (models.User.Email u) (models.User.FullName u) (models.User.TOTPSecret u)
      (models.User.Is2FAEnabled u) false (models.User.IsActive u)
      (models.User.LastLogin u)) ∧
  (GetAllUsers (Enable2FA userID w).2).1
  = listed_with (λ u, models.User.mk
      (models.User.ID u) (models.User.Username u) (models.User.PasswordHash u)
      (models.User.Email u) (models.User.FullName u) (models.User.TOTPSecret u)
      true (models.User.IsAdmin u) (models.User.IsActive u)
      (models.User.LastLogin u)) ∧
  (GetAllUsers (UpdateUserLastLogin userID w).2).1
  = listed_with (λ u, models.User.mk
      (models.User.ID u) (models.User.Username u) (models.User.PasswordHash u)
      (models.User.Email u) (models.User.FullName u) (models.User.TOTPSecret u)
      (models.User.Is2FAEnabled u) (models.User.IsAdmin u)
      (models.User.IsActive u) (clock w)).
Proof.
  intros Hq. cbv zeta.
  rewrite UpdateUserLastLogin_quiet by exact Hq.
  unfold UpdateUserStatus, PromoteToAdmin, DemoteFromAdmin, Enable2FA.
  rewrite !prepare_exec_quiet by exact Hq. cbn [snd].
  rewrite !GetAllUsers_quiet by still_quiet. project.
  repeat split; f_equal; apply users_table_update_listed; reflexivity.
Qed.

Lemma GetAllUsers_after_an_update_witness :
  quiet sample.world ∧
  (GetAllUsers (UpdateUserStatus 7 false sample.world).2).1
  = inr [models.User.mk 7 "alice" "$2a$10$N9qo8uLOickgx2ZMRZoMye" "a@x.com"
           "Alice" "" false false false 0].
Proof.
  assert (Hq : quiet sample.world) by constructor.
  split; [exact Hq|].
  exact (proj1 (proj2 (GetAllUsers_after_an_update 7 false sample.world Hq))).
Defined.

(** ** What the flag updates leave alone *)

Lemma credentials_update userID f d :
  (∀ r, credentials (f r) = credentials r) →
  map credentials (users_table (update_users_where_id userID f d))
  = map credentials (users_table d).
Proof.
  intros Hf. rewrite users_table_update, map_map. apply map_ext. intros r.
  destruct (users.id r =? userID); [apply Hf | reflexivity].
Qed.

Lemma other_tables_update userID f d :
  courses_table (update_users_where_id userID f d) = courses_table d ∧
  tasks_table (update_users_where_id userID f d) = tasks_table d ∧
  user_progress_table (update_users_where_id userID f d)
  = user_progress_table d.
Proof. repeat split; reflexivity. Qed.

(** X9. However the external calls fare, [UpdateUserStatus],
    [PromoteToAdmin], [DemoteFromAdmin], [Enable2FA] and
    [UpdateUserLastLogin] leave the id, username, password hash, email and
    the pending one-time code of every user as they were, and touch no
    course, task or progress row. *)
Theorem flag_updates_keep_credentials
    (userID : Z) (isActive : bool) (w : World) :
  let kept (w' : World) :=
    map credentials (users_table (store w'))
    = map credentials (users_table (store w)) ∧
    courses_table (store w') = courses_table (store w) ∧
    tasks_table (store w') = tasks_table (store w) ∧
    user_progress_table (store w') = user_progress_table (store w) in
  kept (UpdateUserStatus userID isActive w).2 ∧
  kept (PromoteToAdmin userID w).2 ∧
  kept (DemoteFromAdmin userID w).2 ∧
  kept (Enable2FA userID w).2 ∧
  kept (UpdateUserLastLogin userID w).2.
Proof.
  cbv zeta.
  assert (Hkept : ∀ f w',
    (∀ r, credentials (f r) = credentials r) →
    store w' = store w ∨ store w' = update_users_where_id userID f (store w) →
    map credentials (users_table (store w'))
    = map credentials (users_table (store w)) ∧
    courses_table (store w') = courses_table (store w) ∧
    tasks_table (store w') = tasks_table (store w) ∧
    user_progress_table (store w') = user_progress_table (store w)).
  { intros f w' Hf [-> | ->]; [repeat split; reflexivity|].
    split; [apply credentials_update, Hf | apply other_tables_update]. }
  assert (Hpe : ∀ f,
    store ((sql.Prepare;; sql.Exec (update_users_where_id userID f)) w).2
    = store w ∨
    store ((sql.Prepare;; sql.Exec (update_users_where_id userID f)) w).2
    = update_users_where_id userID f (store w)).
  { intros f. destruct (prepare_exec_store (update_users_where_id userID f) w)
      as [H | [_ H]]; auto. }
  split; [|split; [|split; [|split]]].
  - apply (Hkept (users_set_is_active isActive)); [reflexivity | apply Hpe].
  - apply (Hkept (users_set_is_admin true)); [reflexivity | apply Hpe].
  - apply (Hkept (users_set_is_admin false)); [reflexivity | apply Hpe].
  - apply (Hkept (users_set_is_2fa_enabled true)); [reflexivity | apply Hpe].
  - apply (Hkept (users_set_last_login (Some (clock w)))); [reflexivity|].
    destruct (UpdateUserLastLogin_store userID w) as [H | [_ H]]; auto.
Qed.
(** ** LIKE *)

Section Like.

Local Open Scope char_scope.

Let ordinary (c : ascii) : Prop := c ≠ "%" ∧ c ≠ "_" ∧ c ≠ "\".

Lemma like_any_tail s : like ["%"] s = true.
Proof.
  induction s as [|a s IH]; [reflexivity|].
  simpl in *. exact IH.
Qed.

Lemma like_any pattern s :
  like ("%" :: pattern) s = true ↔
  ∃ before rest, s = (before ++ rest)%list ∧ like pattern rest = true.
Proof.
  split.
  - induction s as [|a s IH]; simpl; intros H.
    + rewrite orb_false_r in H. exists [], []. auto.
    + apply orb_true_iff in H as [H|H].
      * exists [], (a :: s). auto.
      * destruct (IH H) as (before & rest & -> & Hrest).
        exists (a :: before), rest. auto.
  - intros (before & rest & -> & Hrest).
    induction before as [|a before IH]; simpl.
    + destruct rest; simpl; rewrite Hrest; reflexivity.
    + simpl in IH. rewrite IH. apply orb_true_r.
Qed.

Lemma like_one pattern s :
  like ("_" :: pattern) s = true ↔ ∃ a rest, s = a :: rest ∧ like pattern rest = true.
Proof.
  simpl. destruct s as [|a s].
  - split; [discriminate | intros (? & ? & [=] & _)].
  - split; [eauto | intros (? & ? & [= <- <-] & H); exact H].
Qed.

Lemma like_ordinary c pattern s :
  ordinary c →
  like (c :: pattern) s = true ↔ ∃ rest, s = c :: rest ∧ like pattern rest = true.
Proof.
  intros (H1 & H2 & H3). simpl.
  rewrite (proj2 (Ascii.eqb_neq _ _) H1), (proj2 (Ascii.eqb_neq _ _) H2),
          (proj2 (Ascii.eqb_neq _ _) H3).
  destruct s as [|a s].
  - split; [discriminate | intros (? & [=] & _)].
  - rewrite andb_true_iff, Ascii.eqb_eq. split.
    + intros [-> H]. eauto.
    + intros (? & [= <- <-] & H). auto.
Qed.

Lemma like_ordinary_run q pattern : ∀ s,
  Forall ordinary q →
  like (q ++ pattern) s = true ↔
  ∃ rest, s = (q ++ rest)%list ∧ like pattern rest = true.
Proof.
  induction q as [|c q IH]; intros s Hq.
  - simpl. split; [eauto | intros (? & -> & H); exact H].
  - apply Forall_cons in Hq as [Hc Hq].
    change ((c :: q) ++ pattern)%list with (c :: (q ++ pattern))%list.
    rewrite like_ordinary by exact Hc. split.
    + intros (rest & -> & H). apply IH in H as (rest' & -> & H); [|exact Hq].
      eauto.
    + intros (rest & -> & H). exists (q ++ rest)%list. split; [reflexivity|].
      apply IH; [exact Hq | eauto].
Qed.

Lemma like_substring q s :
  Forall ordinary q →
  like ("%" :: q ++ ["%"]) s = true ↔
  ∃ before after, s = (before ++ q ++ after)%list.
Proof.
  intros Hq. rewrite like_any. split.
  - intros (before & rest & -> & H).
    apply like_ordinary_run in H as (after & -> & _); [|exact Hq]. eauto.
  - intros (before & after & ->). exists before, (q ++ after)%list.
    split; [reflexivity|]. apply like_ordinary_run; [exact Hq|].
    exists after. split; [reflexivity | apply like_any_tail].
Qed.

Lemma like_substring_with_wildcard q1 q2 c before after :
  Forall ordinary q1 → Forall ordinary q2 →
  like ("%" :: q1 ++ "_" :: q2 ++ ["%"])
       (before ++ q1 ++ c :: q2 ++ after) = true.
Proof.
  intros H1 H2. apply like_any. exists before, (q1 ++ c :: q2 ++ after)%list.
  split; [reflexivity|]. apply like_ordinary_run; [exact H1|].
  eexists. split; [reflexivity|]. apply like_one.
  eexists _, _. split; [reflexivity|]. apply like_ordinary_run; [exact H2|].
  eexists. split; [reflexivity | apply like_any_tail].
Qed.

End Like.

Lemma list_ascii_of_string_app s1 s2 :
  list_ascii_of_string (s1 ++ s2)
  = (list_ascii_of_string s1 ++ list_ascii_of_string s2)%list.
Proof. induction s1 as [|c s1 IH]; simpl; [reflexivity | rewrite IH; reflexivity]. Qed.

Lemma contains_chars s q :
  contains s q ↔
  ∃ before after,
    list_ascii_of_string s
    = (before ++ list_ascii_of_string q ++ after)%list.
Proof.
  unfold contains. split.
  - intros (b & a & ->). rewrite !list_ascii_of_string_app. eauto.
  - intros (b & a & H).
    exists (string_of_list_ascii b), (string_of_list_ascii a).
    rewrite <- (string_of_list_ascii_of_string s), H.
    rewrite <- (string_of_list_ascii_of_string q) at 2.
    generalize (list_ascii_of_string q). intros lq.
    rewrite <- (list_ascii_of_string_of_list_ascii
                  (b ++ lq ++ a)%list) at 1.
    rewrite string_of_list_ascii_of_string.
    f_equal. rewrite <- (list_ascii_of_string_of_list_ascii b) at 1.
    rewrite <- (list_ascii_of_string_of_list_ascii lq) at 1.
    rewrite <- (list_ascii_of_string_of_list_ascii a) at 1.
    rewrite <- !list_ascii_of_string_app.
    rewrite string_of_list_ascii_of_string. reflexivity.
Qed.

Lemma LIKE_contains s q :
  plain q → LIKE s ("%" ++ q ++ "%") = true ↔ contains s q.
Proof.
  intros Hq. unfold LIKE. rewrite contains_chars.
  change (list_ascii_of_string ("%" ++ q ++ "%"))
    with ("%"%char :: list_ascii_of_string (q ++ "%")).
  rewrite list_ascii_of_string_app. apply like_substring. exact Hq.
Qed.

Lemma LIKE_everything s : LIKE s "%%" = true.
Proof.
  unfold LIKE. apply like_any. exists [], (list_ascii_of_string s).
  split; [reflexivity | apply like_any_tail].
Qed.
(** ** Searching *)

Lemma select_users_like_everything d : select_users_like "%%" d = users_table d.
Proof.
  unfold select_users_like.
  induction (users_table d) as [|r l IH]; [reflexivity|].
  rewrite filter_cons, decide_True; [rewrite IH; reflexivity|].
  rewrite LIKE_everything. reflexivity.
Qed.

Lemma map_sublist {A B} (f : A → B) (l1 l2 : list A) :
  l1 `sublist_of` l2 → map f l1 `sublist_of` map f l2.
Proof.
  induction 1; simpl; [constructor | apply sublist_skip | apply sublist_cons];
    assumption.
Qed.

(** X10. [SearchUsers] lists a sub-list of what [GetAllUsers] lists, whatever
    the query, and with the empty query it lists all of it. *)
Theorem SearchUsers_lists_some_of_GetAllUsers (query : string) (w : World) :
  quiet w →
  ∃ found all,
    (SearchUsers query w).1 = inr found ∧
    (GetAllUsers w).1 = inr all ∧
    found `sublist_of` all ∧
    (SearchUsers "" w).1 = inr all.
Proof.
  intros Hq. rewrite !SearchUsers_quiet, GetAllUsers_quiet by exact Hq.
  eexists _, _. split; [reflexivity|]. split; [reflexivity|]. split.
  - apply map_sublist. unfold select_users_like. apply sublist_filter.
  - cbn [fst]. f_equal. f_equal. apply select_users_like_everything.
Qed.

Lemma SearchUsers_lists_some_of_GetAllUsers_witness :
  quiet sample.world ∧
  ∃ found all,
    (SearchUsers "zzz" sample.world).1 = inr found ∧
    (GetAllUsers sample.world).1 = inr all ∧
    found `sublist_of` all ∧
    (SearchUsers "" sample.world).1 = inr all.
Proof.
  assert (Hq : quiet sample.world) by constructor.
  split; [exact Hq|].
  exact (SearchUsers_lists_some_of_GetAllUsers "zzz" sample.world Hq).
Defined.

(** X11. For a query without [%], [_] and backslash, [SearchUsers] lists a
    user exactly when the query occurs in the username, the email or the
    full name of the row. *)
Theorem SearchUsers_finds_substrings (query : string) (w : World) :
  quiet w → plain query →
  ∃ found,
    (SearchUsers query w).1 = inr found ∧
    ∀ user, user ∈ found ↔
      ∃ r, r ∈ users_table (store w) ∧ user = scan_user_listed r ∧
           (contains (users.username r) query
            ∨ contains (users.email r) query
            ∨ contains (users.full_name r) query).
Proof.
  intros Hq Hplain. rewrite SearchUsers_quiet by exact Hq.
  eexists. split; [reflexivity|]. intros user.
  rewrite list_elem_of_fmap. unfold select_users_like.
  split.
  - intros (r & -> & Hr). apply list_elem_of_filter in Hr as [Hlike Hin].
    exists r. split; [exact Hin|]. split; [reflexivity|].
    rewrite !orb_true_iff, !LIKE_contains in Hlike by exact Hplain. tauto.
  - intros (r & Hin & -> & Hc). exists r. split; [reflexivity|].
    apply list_elem_of_filter. split; [|exact Hin].
    rewrite !orb_true_iff, !LIKE_contains by exact Hplain. tauto.
Qed.

Lemma SearchUsers_finds_substrings_witness :
  quiet sample.world ∧ plain "x.com" ∧
  ∃ found,
    (SearchUsers "x.com" sample.world).1 = inr found ∧
    scan_user_listed sample.alice ∈ found.
Proof.
  assert (Hq : quiet sample.world) by constructor.
  assert (Hplain : plain "x.com").
  { repeat constructor; discriminate. }
  split; [exact Hq|]. split; [exact Hplain|].
  destruct (SearchUsers_finds_substrings "x.com" sample.world Hq Hplain)
    as (found & Hfound & Hiff).
  exists found. split; [exact Hfound|].
  apply Hiff. exists sample.alice. split; [left|]. split; [reflexivity|].
  right. left. exists "a@", "". reflexivity.
Defined.

(** X12. The query is not escaped: an underscore in it stands for any one
    character.  For [q1] and [q2] without [%], [_] and backslash, a user
    whose username has [q1], then any character, then [q2] is listed for the
    query [q1 ++ "_" ++ q2]. *)
Theorem SearchUsers_underscore_matches_any_character
    (q1 q2 : string) (c : ascii) (r : users.row) (w : World) :
  quiet w → plain q1 → plain q2 →
  r ∈ users_table (store w) →
  contains (users.username r) (q1 ++ String c q2) →
  ∃ found, (SearchUsers (q1 ++ "_" ++ q2) w).1 = inr found ∧
           scan_user_listed r ∈ found.
Proof.
  intros Hq H1 H2 Hin (before & after & Hname).
  rewrite SearchUsers_quiet by exact Hq.
  eexists. split; [reflexivity|]. apply list_elem_of_fmap.
  exists r. split; [reflexivity|]. unfold select_users_like.
  apply list_elem_of_filter. split; [|exact Hin].
  apply orb_true_iff. left. apply orb_true_iff. left.
  unfold LIKE. rewrite Hname.
  change (list_ascii_of_string ("%" ++ (q1 ++ "_" ++ q2) ++ "%"))
    with ("%"%char :: list_ascii_of_string ((q1 ++ "_" ++ q2) ++ "%")).
  rewrite !list_ascii_of_string_app. simpl.
  rewrite ?list_ascii_of_string_app, <- ?app_assoc. simpl.
  apply like_substring_with_wildcard; assumption.
Qed.

Lemma SearchUsers_underscore_matches_any_character_witness :
  quiet sample.world ∧ plain "al" ∧ plain "ce" ∧
  sample.alice ∈ users_table (store sample.world) ∧
  contains (users.username sample.alice) ("al" ++ String "i" "ce") ∧
  ∃ found, (SearchUsers ("al" ++ "_" ++ "ce") sample.world).1 = inr found ∧
           scan_user_listed sample.alice ∈ found.
Proof.
  assert (Hq : quiet sample.world) by constructor.
  assert (H1 : plain "al") by (repeat constructor; discriminate).
  assert (H2 : plain "ce") by (repeat constructor; discriminate).
  assert (Hin : sample.alice ∈ users_table (store sample.world)) by left.
  assert (Hc : contains (users.username sample.alice)
                 ("al" ++ String "i" "ce")).
  { exists "", "". reflexivity. }
  split; [exact Hq|]. split; [exact H1|]. split; [exact H2|].
  split; [exact Hin|]. split; [exact Hc|].
  exact (SearchUsers_underscore_matches_any_character
           "al" "ce" "i" sample.alice sample.world Hq H1 H2 Hin Hc).
Defined.
(** ** Courses *)

(** X13. [GetCourses] lists one course per row of [courses], in the order of
    the rows, each with the number of task rows that refer to it, which is
    zero for a course without tasks, and with no task list. *)
Theorem GetCourses_counts_tasks (w : World) :
  quiet w →
  ∃ listed,
    (GetCourses w).1 = inr listed ∧
    map models.Course.ID listed = map courses.id (courses_table (store w)) ∧
    Forall (λ c,
      models.Course.Tasks c = [] ∧
      models.Course.TasksCount c
      = Z.of_nat (length (filter (λ t, tasks.course_id t = models.Course.ID c)
                                 (tasks_table (store w)))) ∧
      ((∀ t, t ∈ tasks_table (store w) →
             tasks.course_id t ≠ models.Course.ID c) →
       models.Course.TasksCount c = 0)) listed.
Proof.
  intros Hq. rewrite GetCourses_quiet by exact Hq.
  eexists. split; [reflexivity|]. unfold select_courses. split.
  - rewrite map_map. reflexivity.
  - apply Forall_fmap, Forall_true. intros c. simpl.
    split; [reflexivity|]. split; [reflexivity|].
    intros Hnone. rewrite filter_none_nil by exact Hnone. reflexivity.
Qed.

Lemma GetCourses_counts_tasks_witness :
  quiet sample.world ∧
  ∃ listed, (GetCourses sample.world).1 = inr listed ∧
            map models.Course.ID listed = [1].
Proof.
  assert (Hq : quiet sample.world) by constructor.
  split; [exact Hq|].
  destruct (GetCourses_counts_tasks sample.world Hq)
    as (listed & Hlisted & Hids & _).
  exists listed. split; [exact Hlisted | exact Hids].
Defined.

Lemma GetCourses_inr w listed :
  (GetCourses w).1 = inr listed → listed = select_courses (store w).
Proof.
  unfold GetCourses. expose. follow; try discriminate. intros [= <-].
  reflexivity.
Qed.

(** X14. Whenever [GetCourseByID] returns a course, its [TasksCount] is the
    length of the task list returned with it, and whatever [GetCourses]
    returns on the same store lists the course with the same id, label,
    count and description. *)
Theorem GetCourseByID_count_agrees_with_tasks
    (id : Z) (w : World) (course : models.Course.t) :
  (GetCourseByID id w).1 = inr course →
  models.Course.ID course = id ∧
  models.Course.TasksCount course
  = Z.of_nat (length (models.Course.Tasks course)) ∧
  ∀ w' listed,
    store w' = store w → (GetCourses w').1 = inr listed →
    models.Course.mk (models.Course.ID course)
                     (models.Course.VulnerabilityType course)
                     (models.Course.TasksCount course)
                     (models.Course.Description course) []
      ∈ listed.
Proof.
  intros Hcourse.
  enough (models.Course.ID course = id ∧
          models.Course.TasksCount course
          = Z.of_nat (length (models.Course.Tasks course)) ∧
          models.Course.mk (models.Course.ID course)
                           (models.Course.VulnerabilityType course)
                           (models.Course.TasksCount course)
                           (models.Course.Description course) []
            ∈ select_courses (store w)) as (H1 & H2 & H3).
  { split; [exact H1|]. split; [exact H2|].
    intros w' listed Hstore Hlisted. apply GetCourses_inr in Hlisted.
    rewrite Hlisted, Hstore. exact H3. }
  revert Hcourse.
  unfold GetCourseByID, GetCourseByID_body. expose. follow; try discriminate.
  all: destruct (select_course id (store w)) as [|c0 l] eqn:Hsel;
    follow; try discriminate.
  all: intros [= <-]; cbn [models.Course.ID models.Course.TasksCount
         models.Course.Tasks models.Course.VulnerabilityType
         models.Course.Description].
  all: unfold select_course in Hsel;
    apply fmap_cons_inv in Hsel as (c & l' & -> & _ & Hfilter);
    apply filter_head in Hfilter as [Hin Hid];
    cbn [models.Course.ID models.Course.TasksCount
         models.Course.VulnerabilityType models.Course.Description].
  all: split; [exact Hid|]; split.
  all: try (rewrite length_map; unfold select_tasks;
            rewrite (Permutation_length (order_by_Permutation _ _));
            rewrite Hid; reflexivity).
  all: unfold select_courses; apply list_elem_of_fmap; exists c;
    split; [reflexivity | exact Hin].
Qed.

Lemma GetCourseByID_count_agrees_with_tasks_witness :
  ∃ course,
    (GetCourseByID 1 sample.world).1 = inr course ∧
    models.Course.TasksCount course = 2 ∧
    length (models.Course.Tasks course) = 2%nat.
Proof.
  eexists. split; [vm_compute; reflexivity|].
  pose proof (GetCourseByID_count_agrees_with_tasks 1 sample.world _ eq_refl)
    as (_ & Hcount & _).
  split; [exact Hcount | reflexivity].
Defined.

(** X15. However the external calls fare, [GetCourseByID] answers
    [ErrCourseNotFound] only if no course has the id, and [CompleteTask]
    answers [ErrTaskNotFound] only if no task has the id and then leaves the
    store as it was: a failure of the driver is never reported as a missing
    course or task. *)
Theorem not_found_errors_mean_no_row (id userID taskID : Z) (w : World) :
  ((GetCourseByID id w).1 = inl ErrCourseNotFound →
   ∀ c, c ∈ courses_table (store w) → courses.id c ≠ id) ∧
  ((CompleteTask userID taskID w).1 = inl ErrTaskNotFound →
   (∀ t, t ∈ tasks_table (store w) → tasks.id t ≠ taskID) ∧
   store (CompleteTask userID taskID w).2 = store w).
Proof.
  split.
  - unfold GetCourseByID, GetCourseByID_body. expose. follow; try discriminate.
    all: destruct (select_course id (store w)) as [|c0 l] eqn:Hsel;
      follow; try discriminate.
    all: intros _ c Hin Hid; unfold select_course in Hsel;
      apply fmap_nil_inv in Hsel;
      exact (filter_nil_none _ _ Hsel c Hin Hid).
  - unfold CompleteTask, select_exists_task, scan_exists. expose.
    follow; try discriminate.
    destruct (existsb _ _) eqn:He; follow; try discriminate.
    intros _. split; [|reflexivity].
    intros t Hin Hid.
    assert (Hex : existsb (λ t, tasks.id t =? taskID) (tasks_table (store w))
                  = true) by (apply existsb_task; eauto).
    congruence.
Qed.

(** X16. [GetCourseByID] always finishes the transaction it begins: however
    the call ends, the open transactions and the store are what they were. *)
Theorem GetCourseByID_finishes_its_transaction (id : Z) (w : World) :
  txs w !! next_tx w = None →
  txs (GetCourseByID id w).2 = txs w ∧
  store (GetCourseByID id w).2 = store w.
Proof.
  intros Hfresh. unfold GetCourseByID, GetCourseByID_body. expose.
  follow; rewrite ?lookup_delete_eq; follow.
  all: try (destruct (select_course id (store w)) as [|c0 l]; follow).
  all: rewrite ?delete_insert_id by exact Hfresh; split; reflexivity.
Qed.

Lemma GetCourseByID_finishes_its_transaction_witness :
  txs sample.world !! next_tx sample.world = None ∧
  txs (GetCourseByID 1 sample.world).2 = txs sample.world ∧
  store (GetCourseByID 1 sample.world).2 = store sample.world.
Proof.
  assert (Hfresh : txs sample.world !! next_tx sample.world = None)
    by reflexivity.
  split; [exact Hfresh|].
  exact (GetCourseByID_finishes_its_transaction 1 sample.world Hfresh).
Defined.
(** ** The transaction of a profile update *)

(** X17. [UpdateUserProfile] never rolls back.  When [Begin] succeeds and the
    first failure is in one of the calls made before [Commit] (preparing or
    running a statement, hashing the password), the call returns that
    failure, nothing is committed, and the transaction is still open. *)
Theorem UpdateUserProfile_failure_leaves_the_transaction_open
    (bcrypt : nat → string → string) (userID : Z)
    (data : models.UpdateProfileRequest.t) (w : World)
    (k : nat) (msg : string) (later : list (option string)) :
  faults w = (replicate (S k) None ++ Some msg :: later)%list →
  (k < statements_before_commit data)%nat →
  (UpdateUserProfile bcrypt userID data w).1 = inl (ErrDriver msg) ∧
  store (UpdateUserProfile bcrypt userID data w).2 = store w ∧
  is_Some (txs (UpdateUserProfile bcrypt userID data w).2 !! next_tx w).
Proof.
  destruct w as [st open n fs clk ent]. cbn [faults next_tx store].
  intros -> Hk.
  unfold statements_before_commit in Hk.
  unfold UpdateUserProfile, UpdateUserProfile_body, GenerateFromPassword.
  expose.
  destruct (String.eqb (models.UpdateProfileRequest.Email data) "");
  destruct (String.eqb (models.UpdateProfileRequest.FullName data) "");
  destruct (String.eqb (models.UpdateProfileRequest.Password data) "");
  cbn [Nat.add] in Hk;
  do 8 (try (destruct k as [|k]; [|try lia]));
  try lia;
  repeat first
    [ rewrite lookup_insert_eq
    | progress cbn [outcome faults skip tail replicate app store txs next_tx
                    clock entropy set_store set_txs fst snd negb]
    | progress (cbv beta iota) ];
  (split; [reflexivity|]; split; [reflexivity|]; eexists; reflexivity).
Qed.

Lemma UpdateUserProfile_failure_leaves_the_transaction_open_witness :
  faults sample_faults.world
  = (replicate 4 None ++ Some "deadlock" :: [])%list ∧
  (3 < statements_before_commit sample_faults.request)%nat ∧
  (UpdateUserProfile sample.bcrypt 7 sample_faults.request
     sample_faults.world).1 = inl (ErrDriver "deadlock") ∧
  is_Some (txs (UpdateUserProfile sample.bcrypt 7 sample_faults.request
                  sample_faults.world).2 !! 0%nat).
Proof.
  assert (Hf : faults sample_faults.world
               = (replicate 4 None ++ Some "deadlock" :: [])%list)
    by reflexivity.
  assert (Hk : (3 < statements_before_commit sample_faults.request)%nat)
    by (vm_compute; lia).
  split; [exact Hf|]. split; [exact Hk|].
  pose proof (UpdateUserProfile_failure_leaves_the_transaction_open
                sample.bcrypt 7 sample_faults.request sample_faults.world
                3 "deadlock" [] Hf Hk) as (Herr & _ & Hopen).
  split; [exact Herr | exact Hopen].
Defined.

(** X18. A call of [UpdateUserProfile] that succeeds has finished its
    transaction. *)
Theorem UpdateUserProfile_success_finishes_the_transaction
    (bcrypt : nat → string → string) (userID : Z)
    (data : models.UpdateProfileRequest.t) (w : World) :
  (UpdateUserProfile bcrypt userID data w).1 = inr tt →
  txs (UpdateUserProfile bcrypt userID data w).2 !! next_tx w = None.
Proof.
  unfold UpdateUserProfile, UpdateUserProfile_body, GenerateFromPassword.
  expose.
  destruct (String.eqb (models.UpdateProfileRequest.Email data) "");
  destruct (String.eqb (models.UpdateProfileRequest.FullName data) "");
  destruct (String.eqb (models.UpdateProfileRequest.Password data) "");
  fork; try discriminate; intros _; apply lookup_delete_eq.
Qed.

Lemma UpdateUserProfile_success_finishes_the_transaction_witness :
  (UpdateUserProfile sample.bcrypt 7 sample_faults.request sample.world).1
  = inr tt ∧
  txs (UpdateUserProfile sample.bcrypt 7 sample_faults.request
         sample.world).2 !! 0%nat = None.
Proof.
  assert (Hok : (UpdateUserProfile sample.bcrypt 7 sample_faults.request
                   sample.world).1 = inr tt) by (vm_compute; reflexivity).
  split; [exact Hok|].
  exact (UpdateUserProfile_success_finishes_the_transaction _ _ _ _ Hok).
Defined.
(** ** Progress *)

(** X19. [GetUserProgress] maps a task to [true] exactly when the table holds
    the completion for that user, and maps no task to [false]; for a user
    without completions the map is empty and there is no error. *)
Theorem GetUserProgress_maps_completed_tasks_only (userID : Z) (w : World) :
  quiet w →
  ∃ progress,
    (GetUserProgress userID w).1 = inr progress ∧
    models.UserProgress.UserID progress = userID ∧
    (∀ taskID,
       models.UserProgress.Completed progress !! taskID
       = if decide (user_progress.mk userID taskID
                      ∈ user_progress_table (store w))
         then Some true else None) ∧
    ((∀ r, r ∈ user_progress_table (store w) →
           user_progress.user_id r ≠ userID) →
     models.UserProgress.Completed progress = ∅).
Proof.
  intros Hq. rewrite GetUserProgress_quiet by exact Hq.
  eexists. split; [reflexivity|]. split; [reflexivity|]. simpl. split.
  - intros taskID. rewrite completed_lookup, lookup_empty.
    destruct (decide (taskID ∈ select_progress userID (store w))) as [H|H];
      rewrite elem_of_select_progress in H.
    + rewrite decide_True by exact H. reflexivity.
    + rewrite decide_False by exact H. reflexivity.
  - intros Hnone. unfold select_progress.
    rewrite filter_none_nil by exact Hnone. reflexivity.
Qed.

Lemma GetUserProgress_maps_completed_tasks_only_witness :
  quiet sample.world ∧
  ∃ progress,
    (GetUserProgress 7 sample.world).1 = inr progress ∧
    models.UserProgress.Completed progress = ∅.
Proof.
  assert (Hq : quiet sample.world) by constructor.
  split; [exact Hq|].
  destruct (GetUserProgress_maps_completed_tasks_only 7 sample.world Hq)
    as (progress & Hp & _ & _ & Hempty).
  exists progress. split; [exact Hp|]. apply Hempty.
  intros r Hr. inversion Hr.
Defined.

(** X20. However the external calls fare, [CompleteTask(userID, taskID)]
    removes no completion and adds none but the one asked for: afterwards
    the table holds a row exactly if it held it before or, the call having
    succeeded, it is the row of [userID] and [taskID]. *)
Theorem CompleteTask_adds_one_completion_at_most
    (userID taskID : Z) (w : World) (r : user_progress.row) :
  (r ∈ user_progress_table (store (CompleteTask userID taskID w).2) ↔
   r ∈ user_progress_table (store w) ∨
   ((CompleteTask userID taskID w).1 = inr tt ∧
    r = user_progress.mk userID taskID)) ∧
  users_table (store (CompleteTask userID taskID w).2) = users_table (store w) ∧
  tasks_table (store (CompleteTask userID taskID w).2) = tasks_table (store w).
Proof.
  unfold CompleteTask, select_exists_task, scan_exists. expose.
  follow; try (split; [|split; reflexivity]; split;
               [auto | intros [H | [[=] _]]; exact H]).
  destruct (existsb _ _); follow;
    try (split; [|split; reflexivity]; split;
         [auto | intros [H | [[=] _]]; exact H]).
  split; [|split; reflexivity]. simpl.
  rewrite insert_user_progress_spec. case_decide as Hin.
  - split; [auto | intros [H | [_ ->]]; assumption].
  - rewrite elem_of_app, list_elem_of_singleton. split.
    + intros [H | ->]; auto.
    + intros [H | [_ ->]]; auto.
Qed.

(** ** One-time passwords, continued *)

Lemma select_otp_update userID code expires d :
  select_otp userID
    (update_users_where_id userID (users.set_otp code expires) d)
  = map (λ _, (code, expires)) (select_otp userID d).
Proof.
  unfold select_otp. rewrite users_table_update.
  induction (users_table d) as [|r l IH]; [reflexivity|].
  simpl. rewrite !filter_cons.
  destruct (users.id r =? userID) eqn:He.
  - apply Z.eqb_eq in He. simpl. rewrite !decide_True by exact He.
    simpl. f_equal. exact IH.
  - apply Z.eqb_neq in He. rewrite !decide_False by exact He. exact IH.
Qed.

Lemma select_otp_known userID d r :
  r ∈ users_table d → users.id r = userID →
  ∃ first rest, select_otp userID d = first :: rest.
Proof.
  intros Hin Hid. unfold select_otp.
  destruct (filter_id_cons userID _ r Hin Hid) as (r' & l' & -> & _).
  simpl. eauto.
Qed.

Lemma quiet_elapse d w : quiet w → quiet (elapse d w).
Proof. intros. still_quiet. Qed.

(** X21. After [SaveOTPCode(userID, code)] for a stored user, [d] nanoseconds
    later [VerifyOTPCode(userID, supplied)] answers, without error, whether
    the code is not empty, no more than five minutes have passed, and the
    supplied code is the saved one.  The code saved last is the one that
    counts, and an empty saved code is never accepted. *)
Theorem VerifyOTPCode_after_SaveOTPCode
    (userID : Z) (code supplied : string) (d : Z) (w : World) :
  quiet w →
  (∃ r, r ∈ users_table (store w) ∧ users.id r = userID) →
  (SaveOTPCode userID code w).1 = inr tt ∧
  (VerifyOTPCode userID supplied (elapse d (SaveOTPCode userID code w).2)).1
  = inr (negb (String.eqb code "") && (d <=? 5 * 60 * 1000000000)
         && bool_decide (supplied = code)).
Proof.
  intros Hq (r & Hin & Hid).
  destruct (select_otp_known userID (store w) r Hin Hid) as (o & rest & Hsel).
  rewrite (SaveOTPCode_quiet userID code w Hq). cbn [fst snd].
  split; [reflexivity|].
  rewrite VerifyOTPCode_quiet by still_quiet.
  cbn [elapse store clock set_store skip].
  rewrite select_otp_update, Hsel. simpl map. cbv beta iota.
  f_equal. f_equal. f_equal. f_equal.
  unfold Minute.
  destruct (Z.ltb_spec (clock w + 5 * (60 * 1000000000)) (clock w + d));
    destruct (Z.leb_spec d (5 * 60 * 1000000000)); simpl; try reflexivity; lia.
Qed.

Lemma VerifyOTPCode_after_SaveOTPCode_witness :
  quiet sample.world ∧
  (∃ r, r ∈ users_table (store sample.world) ∧ users.id r = 7) ∧
  (VerifyOTPCode 7 "123456"
     (elapse 300000000001 (SaveOTPCode 7 "123456" sample.world).2)).1
  = inr false.
Proof.
  assert (Hq : quiet sample.world) by constructor.
  assert (Hex : ∃ r, r ∈ users_table (store sample.world) ∧ users.id r = 7).
  { exists sample.alice. split; [left | reflexivity]. }
  split; [exact Hq|]. split; [exact Hex|].
  exact (proj2 (VerifyOTPCode_after_SaveOTPCode 7 "123456" "123456"
                  300000000001 sample.world Hq Hex)).
Defined.

(** X22. [VerifyOTPCode] does not use the code up: asked again at the same
    time it gives the same answer, so an accepted code is accepted again
    until it expires or is cleared. *)
Theorem VerifyOTPCode_can_be_repeated (userID : Z) (code : string) (w : World) :
  quiet w →
  (VerifyOTPCode userID code (VerifyOTPCode userID code w).2).1
  = (VerifyOTPCode userID code w).1.
Proof.
  intros Hq.
  assert (Hw : (VerifyOTPCode userID code w).2 = skip (skip w)).
  { unfold VerifyOTPCode. expose. calm.
    destruct (select_otp userID (store w)) as [|[[c|] [e|]] rows];
      cbn [scan_otp]; calm; try reflexivity.
    - destruct (String.eqb c ""); calm; [reflexivity|].
      destruct (e <? clock w); reflexivity. }
  rewrite Hw, !VerifyOTPCode_quiet by still_quiet. reflexivity.
Qed.

Lemma VerifyOTPCode_can_be_repeated_witness :
  let w1 := (SaveOTPCode 7 "123456" sample.world).2 in
  quiet w1 ∧
  (VerifyOTPCode 7 "123456" w1).1 = inr true ∧
  (VerifyOTPCode 7 "123456" (VerifyOTPCode 7 "123456" w1).2).1 = inr true.
Proof.
  cbv zeta.
  assert (Hq : quiet (SaveOTPCode 7 "123456" sample.world).2) by constructor.
  assert (Hfirst : (VerifyOTPCode 7 "123456"
                      (SaveOTPCode 7 "123456" sample.world).2).1 = inr true)
    by (vm_compute; reflexivity).
  split; [exact Hq|]. split; [exact Hfirst|].
  rewrite (VerifyOTPCode_can_be_repeated 7 "123456" _ Hq). exact Hfirst.
Defined.

(** X23. After [ClearOTPCode] for a stored user, [VerifyOTPCode] for that user
    returns the error of scanning a NULL [otp_code], for every supplied
    code and at every later time. *)
Theorem VerifyOTPCode_after_ClearOTPCode
    (userID : Z) (supplied : string) (d : Z) (w : World) :
  quiet w →
  (∃ r, r ∈ users_table (store w) ∧ users.id r = userID) →
  (ClearOTPCode userID w).1 = inr tt ∧
  (VerifyOTPCode userID supplied (elapse d (ClearOTPCode userID w).2)).1
  = inl (ErrScanNull "otp_code").
Proof.
  intros Hq (r & Hin & Hid).
  destruct (select_otp_known userID (store w) r Hin Hid) as (o & rest & Hsel).
  rewrite (ClearOTPCode_quiet userID w Hq). cbn [fst snd].
  split; [reflexivity|].
  rewrite VerifyOTPCode_quiet by still_quiet.
  cbn [elapse store clock set_store skip].
  rewrite select_otp_update, Hsel. reflexivity.
Qed.

Lemma VerifyOTPCode_after_ClearOTPCode_witness :
  quiet sample.world ∧
  (∃ r, r ∈ users_table (store sample.world) ∧ users.id r = 7) ∧
  (VerifyOTPCode 7 "" (elapse 0 (ClearOTPCode 7 sample.world).2)).1
  = inl (ErrScanNull "otp_code").
Proof.
  assert (Hq : quiet sample.world) by constructor.
  assert (Hex : ∃ r, r ∈ users_table (store sample.world) ∧ users.id r = 7).
  { exists sample.alice. split; [left | reflexivity]. }
  split; [exact Hq|]. split; [exact Hex|].
  exact (proj2 (VerifyOTPCode_after_ClearOTPCode 7 "" 0 sample.world Hq Hex)).
Defined.
(** X24. When nothing fails, [VerifyOTPCode] answers [true] exactly if the
    first row with the user id holds the supplied code, that code is not
    empty, and the time of the call is not after the stored expiry. *)
Theorem VerifyOTPCode_accepts_exactly (userID : Z) (code : string) (w : World) :
  quiet w →
  (VerifyOTPCode userID code w).1 = inr true ↔
  ∃ r rest expiresAt,
    filter (λ r, users.id r = userID) (users_table (store w)) = r :: rest ∧
    users.otp_code r = Some code ∧ code ≠ "" ∧
    users.otp_expires_at r = Some expiresAt ∧ clock w ≤ expiresAt.
Proof.
  intros Hq. rewrite (VerifyOTPCode_true_iff userID code w Hq).
  unfold select_otp. split.
  - intros (e & rows & Hsel & Hne & Hle).
    apply fmap_cons_inv in Hsel as (r & rest & [= Hc He] & _ & Hfilter).
    exists r, rest, e. auto.
  - intros (r & rest & e & -> & Hc & Hne & He & Hle).
    exists e, (map (λ r, (users.otp_code r, users.otp_expires_at r)) rest).
    simpl. rewrite Hc, He. auto.
Qed.

Lemma VerifyOTPCode_accepts_exactly_witness :
  let w1 := (SaveOTPCode 7 "123456" sample.world).2 in
  quiet w1 ∧ (VerifyOTPCode 7 "123456" w1).1 = inr true.
Proof.
  cbv zeta.
  assert (Hq : quiet (SaveOTPCode 7 "123456" sample.world).2) by constructor.
  split; [exact Hq|].
  apply (VerifyOTPCode_accepts_exactly 7 "123456" _ Hq).
  eexists _, _, _. split; [reflexivity|]. split; [reflexivity|].
  split; [discriminate|]. split; [reflexivity|]. vm_compute. discriminate.
Defined.

(** ** The one-time code and the rest of the store *)

Lemma otp_invariant_credentials d d' :
  map credentials (users_table d') = map credentials (users_table d) →
  otp_invariant d → otp_invariant d'.
Proof.
  unfold otp_invariant. intros Hc Hinv.
  assert (Hd : Forall (λ c : Z * string * string * string
                               * option string * option Z,
                         c.1.2 = None ↔ c.2 = None)
                      (map credentials (users_table d))).
  { apply Forall_fmap. exact Hinv. }
  rewrite <- Hc in Hd. apply Forall_fmap in Hd. exact Hd.
Qed.

Lemma CreateUser_store user w :
  store (CreateUser user w).2 = store w ∨
  store (CreateUser user w).2 = insert_user user (store w).
Proof.
  unfold CreateUser, select_exists_user, scan_exists. expose.
  fork; auto. destruct (existsb _ _); fork; auto.
Qed.

Lemma CompleteTask_users userID taskID w :
  users_table (store (CompleteTask userID taskID w).2) = users_table (store w).
Proof.
  unfold CompleteTask, select_exists_task, scan_exists. expose.
  fork; auto. destruct (existsb _ _); fork; auto.
Qed.

Lemma credentials_committed_profile bcrypt salt userID data d :
  map credentials (users_table (committed_profile bcrypt salt userID data d))
  = map (λ r, (users.id r, users.username r,
               users.password_hash
                 (if users.id r =? userID
                  then requested_row data
                         (bcrypt salt (models.UpdateProfileRequest.Password data)) r
                  else r),
               users.email
                 (if users.id r =? userID
                  then requested_row data
                         (bcrypt salt (models.UpdateProfileRequest.Password data)) r
                  else r),
               users.otp_code r, users.otp_expires_at r))
        (users_table d).
Proof.
  rewrite committed_profile_users, map_map. apply map_ext. intros r.
  destruct (users.id r =? userID); reflexivity.
Qed.

(** X25. The methods that are not OTP operations keep the OTP invariant too,
    however the external calls fare: after [CreateUser], [UpdateUserProfile],
    [CompleteTask], [UpdateUserStatus], [PromoteToAdmin], [DemoteFromAdmin],
    [Enable2FA] and [UpdateUserLastLogin], every user row still has both
    OTP columns set or both NULL; a successful [CreateUser] adds one row
    after the former ones, and that row has both OTP columns NULL. *)
Theorem other_methods_keep_the_OTP_invariant
    (bcrypt : nat → string → string) (user : models.User.t)
    (userID taskID : Z) (isActive : bool)
    (data : models.UpdateProfileRequest.t) (w : World) :
  otp_invariant (store w) →
  otp_invariant (store (CreateUser user w).2) ∧
  otp_invariant (store (UpdateUserProfile bcrypt userID data w).2) ∧
  otp_invariant (store (CompleteTask userID taskID w).2) ∧
  otp_invariant (store (UpdateUserStatus userID isActive w).2) ∧
  otp_invariant (store (PromoteToAdmin userID w).2) ∧
  otp_invariant (store (DemoteFromAdmin userID w).2) ∧
  otp_invariant (store (Enable2FA userID w).2) ∧
  otp_invariant (store (UpdateUserLastLogin userID w).2) ∧
  ((CreateUser user w).1 = inr tt →
   ∃ row, users_table (store (CreateUser user w).2)
          = (users_table (store w) ++ [row])%list ∧
          users.otp_code row = None ∧ users.otp_expires_at row = None).
Proof.
  intros Hinv.
  assert (Hflag : ∀ f w',
    (∀ r, credentials (f r) = credentials r) →
    store w' = store w ∨ store w' = update_users_where_id userID f (store w) →
    otp_invariant (store w')).
  { intros f w' Hf [-> | ->]; [exact Hinv|].
    eapply otp_invariant_credentials; [|exact Hinv].
    apply credentials_update, Hf. }
  assert (Hpe : ∀ f,
    store ((sql.Prepare;; sql.Exec (update_users_where_id userID f)) w).2
    = store w ∨
    store ((sql.Prepare;; sql.Exec (update_users_where_id userID f)) w).2
    = update_users_where_id userID f (store w)).
  { intros f. destruct (prepare_exec_store (update_users_where_id userID f) w)
      as [H | [_ H]]; auto. }
  split; [|split; [|split; [|split; [|split; [|split; [|split; [|split]]]]]]].
  - destruct (CreateUser_store user w) as [-> | ->]; [exact Hinv|].
    unfold otp_invariant, insert_user. cbn [users_table].
    apply Forall_app. split; [exact Hinv|].
    constructor; [simpl; tauto | constructor].
  - destruct (UpdateUserProfile_cases bcrypt userID data w)
      as [(e & _ & ->) | [_ ->]]; [exact Hinv|].
    unfold otp_invariant. rewrite committed_profile_users.
    apply Forall_fmap. eapply Forall_impl; [exact Hinv|].
    intros r Hr. simpl. destruct (users.id r =? userID); exact Hr.
  - unfold otp_invariant. rewrite CompleteTask_users. exact Hinv.
  - apply (Hflag (users_set_is_active isActive)); [reflexivity | apply Hpe].
  - apply (Hflag (users_set_is_admin true)); [reflexivity | apply Hpe].
  - apply (Hflag (users_set_is_admin false)); [reflexivity | apply Hpe].
  - apply (Hflag (users_set_is_2fa_enabled true)); [reflexivity | apply Hpe].
  - apply (Hflag (users_set_last_login (Some (clock w)))); [reflexivity|].
    destruct (UpdateUserLastLogin_store userID w) as [H | [_ H]]; auto.
  - clear Hflag Hpe Hinv.
    unfold CreateUser, select_exists_user, scan_exists. expose.
    destruct (existsb _ _); fork; try discriminate.
    intros _. eexists. split; [reflexivity|]. simpl. auto.
Qed.

Lemma other_methods_keep_the_OTP_invariant_witness :
  let bob := models.User.mk 0 "bob" "$2a$10$h" "b@x.com" "Bob" "" false
                            false false 0 in
  otp_invariant (store sample.world) ∧
  otp_invariant (store (CreateUser bob sample.world).2) ∧
  (CreateUser bob sample.world).1 = inr tt ∧
  ∃ row, users_table (store (CreateUser bob sample.world).2)
         = [sample.alice; row] ∧
         users.otp_code row = None ∧ users.otp_expires_at row = None.
Proof.
  cbv zeta.
  assert (Hinv : otp_invariant (store sample.world)).
  { repeat constructor; intros _; reflexivity. }
  assert (Hok : (CreateUser
                   (models.User.mk 0 "bob" "$2a$10$h" "b@x.com" "Bob" "" false
                                   false false 0) sample.world).1 = inr tt)
    by (vm_compute; reflexivity).
  pose proof (other_methods_keep_the_OTP_invariant sample.bcrypt
                (models.User.mk 0 "bob" "$2a$10$h" "b@x.com" "Bob" "" false
                                false false 0)
                7 10 true sample_faults.request sample.world Hinv)
    as (Hcreate & _ & _ & _ & _ & _ & _ & _ & Hrow).
  split; [exact Hinv|]. split; [exact Hcreate|]. split; [exact Hok|].
  exact (Hrow Hok).
Defined.

(** X26. However the external calls fare, [SaveOTPCode] and [ClearOTPCode]
    for one user change nothing but the two OTP columns of that user's
    rows: every row of another user, and every other column, is what it
    was. *)
Theorem OTP_updates_touch_one_user_only
    (userID : Z) (code : string) (w : World) :
  let touched (w' : World) :=
    Forall2 (λ r r',
               (users.id r ≠ userID → r' = r) ∧
               r' = users.set_otp (users.otp_code r') (users.otp_expires_at r') r)
            (users_table (store w)) (users_table (store w')) ∧
    courses_table (store w') = courses_table (store w) ∧
    tasks_table (store w') = tasks_table (store w) ∧
    user_progress_table (store w') = user_progress_table (store w) in
  touched (SaveOTPCode userID code w).2 ∧ touched (ClearOTPCode userID w).2.
Proof.
  cbv zeta.
  assert (Hsame : ∀ l : list users.row,
    Forall2 (λ r r',
               (users.id r ≠ userID → r' = r) ∧
               r' = users.set_otp (users.otp_code r') (users.otp_expires_at r') r)
            l l).
  { intros l. apply Forall_Forall2_diag, Forall_true. intros r.
    split; [reflexivity | destruct r; reflexivity]. }
  assert (Hset : ∀ c e (l : list users.row),
    Forall2 (λ r r',
               (users.id r ≠ userID → r' = r) ∧
               r' = users.set_otp (users.otp_code r') (users.otp_expires_at r') r)
            l (map (λ r, if users.id r =? userID then users.set_otp c e r else r) l)).
  { intros c e l. induction l as [|r l IH]; simpl; constructor; [|exact IH].
    destruct (users.id r =? userID) eqn:He.
    - apply Z.eqb_eq in He. split; [contradiction | reflexivity].
    - split; [reflexivity | destruct r; reflexivity]. }
  split.
  - destruct (SaveOTPCode_store userID code w) as [-> | ->].
    + split; [apply Hsame | repeat split; reflexivity].
    + split; [apply Hset | repeat split; reflexivity].
  - destruct (ClearOTPCode_store userID w) as [-> | ->].
    + split; [apply Hsame | repeat split; reflexivity].
    + split; [apply Hset | repeat split; reflexivity].
Qed.

(** ** An unknown user and a user without a challenge *)

(** C9. For a user id that no stored user has, [VerifyOTPCode] returns
    [false] and no error; for a stored user whose [otp_code] is NULL, the
    state of a user with no pending challenge, the same call returns the
    error of the NULL scan.  The two answers differ, so the unknown user is
    told apart from the user without a challenge. *)
Theorem VerifyOTPCode_unknown_user_differs_from_no_challenge
    (unknown stored : Z) (code : string) (w : World) :
  quiet w →
  (∀ r, r ∈ users_table (store w) → users.id r ≠ unknown) →
  (∃ r rest,
     filter (λ r, users.id r = stored) (users_table (store w)) = r :: rest ∧
     users.otp_code r = None) →
  (VerifyOTPCode unknown code w).1 = inr false ∧
  (VerifyOTPCode stored code w).1 = inl (ErrScanNull "otp_code") ∧
  (VerifyOTPCode unknown code w).1 ≠ (VerifyOTPCode stored code w).1.
Proof.
  intros Hq Hnone (r & rest & Hfilter & Hnull).
  rewrite !VerifyOTPCode_quiet by exact Hq.
  rewrite (select_otp_unknown unknown) by exact Hnone.
  unfold select_otp. rewrite Hfilter. simpl. rewrite Hnull.
  split; [reflexivity|]. split; [reflexivity | discriminate].
Qed.

Lemma VerifyOTPCode_unknown_user_differs_from_no_challenge_witness :
  let w2 := (ClearOTPCode 7 (SaveOTPCode 7 "123456" sample.world).2).2 in
  quiet w2 ∧
  (∀ r, r ∈ users_table (store w2) → users.id r ≠ 8) ∧
  (∃ r rest,
     filter (λ r, users.id r = 7) (users_table (store w2)) = r :: rest ∧
     users.otp_code r = None) ∧
  (VerifyOTPCode 8 "123456" w2).1 = inr false ∧
  (VerifyOTPCode 7 "123456" w2).1 = inl (ErrScanNull "otp_code").
Proof.
  cbv zeta.
  assert (Hq : quiet (ClearOTPCode 7
                        (SaveOTPCode 7 "123456" sample.world).2).2)
    by constructor.
  assert (Hnone : ∀ r,
    r ∈ users_table
          (store (ClearOTPCode 7 (SaveOTPCode 7 "123456" sample.world).2).2) →
    users.id r ≠ 8).
  { intros r Hr. apply list_elem_of_singleton in Hr. subst r. discriminate. }
  assert (Hnull : ∃ r rest,
    filter (λ r, users.id r = 7)
      (users_table
         (store (ClearOTPCode 7 (SaveOTPCode 7 "123456" sample.world).2).2))
    = r :: rest ∧ users.otp_code r = None).
  { exists sample.alice, []. split; reflexivity. }
  split; [exact Hq|]. split; [exact Hnone|]. split; [exact Hnull|].
  destruct (VerifyOTPCode_unknown_user_differs_from_no_challenge
              8 7 "123456" _ Hq Hnone Hnull) as (Hunknown & Hstored & _).
  split; [exact Hunknown | exact Hstored].
Defined.

(** ** Registration and profile update on the sample store *)

Lemma CreateUser_stores_active_witness :
  let bob := models.User.mk 0 "bob" "$2a$10$h" "b@x.com" "Bob" "" false
                            true false 0 in
  (CreateUser bob sample.world).1 = inr tt ∧
  ∃ row, users_table (store (CreateUser bob sample.world).2)
         = [sample.alice; row] ∧
         users.username row = "bob" ∧
         users.is_active row = true ∧
         users.is_admin row = false.
Proof.
  cbv zeta.
  assert (Hok : (CreateUser
                   (models.User.mk 0 "bob" "$2a$10$h" "b@x.com" "Bob" "" false
                                   true false 0) sample.world).1 = inr tt)
    by (vm_compute; reflexivity).
  split; [exact Hok|].
  exact (proj1 (CreateUser_stores_active
                  (models.User.mk 0 "bob" "$2a$10$h" "b@x.com" "Bob" "" false
                                  true false 0) sample.world) Hok).
Defined.

Lemma UpdateUserProfile_applies_nonempty_fields_only_witness :
  let request := models.UpdateProfileRequest.mk "" "new" "" in
  let result := UpdateUserProfile sample.bcrypt 7 request sample.world in
  quiet sample.world ∧
  result.1 = inr tt ∧
  users_table (store result.2)
  = [users.mk 7 "alice" "$2a$10$N9qo8uLOickgx2ZMRZoMye" "a@x.com" "new" ""
              false false true None None None] ∧
  map users.email (users_table (store result.2)) = ["a@x.com"] ∧
  map users.password_hash (users_table (store result.2))
  = ["$2a$10$N9qo8uLOickgx2ZMRZoMye"].
Proof.
  cbv zeta.
  assert (Hq : quiet sample.world) by constructor.
  pose proof (UpdateUserProfile_applies_nonempty_fields_only sample.bcrypt 7
                (models.UpdateProfileRequest.mk "" "new" "") sample.world)
    as (Hemail & _ & Hhash & Hok & Hrows).
  split; [exact Hq|]. split; [exact (Hok Hq)|].
  split; [exact (Hrows (Hok Hq))|].
  split; [exact (Hemail eq_refl) | exact (Hhash eq_refl)].
Defined.
